(** * AuDite front end: credential verification, admin signup and doctor
    account management.

    A shallow embedding of the event handlers of the login page
    ([Login.handleSubmit], in its store-backed and in its earlier literal
    version) and of the admin console ([AdminDashboard.generateDoctorId],
    [handleCreateDoctor], [handleDeleteDoctor], the [onSnapshot] listener),
    over an explicit model of the browser tab and of the document store the
    handlers talk to; and, beside them, of the role selectors of both login
    pages, the side bar and the greeting of the doctor dashboard and the
    route table of [App]. *)

From Stdlib Require Import NArith Ascii String DecimalString DecimalN DecimalPos.
From stdpp Require Import gmap strings list fin_maps sorting.

Open Scope string_scope.

(** ** Strings as the handlers use them *)

Module JsString.

(** [s.substr(start, len)] for a non-negative [start]: the characters from
    index [start] on, at most [len] of them; short strings give short
    results, never an error. *)
Fixpoint drop_chars (n : nat) (s : string) : string :=
  match n, s with
  | O, _ => s
  | S _, EmptyString => EmptyString
  | S n', String _ s' => drop_chars n' s'
  end.

Fixpoint take_chars (n : nat) (s : string) : string :=
  match n, s with
  | O, _ => EmptyString
  | S _, EmptyString => EmptyString
  | S n', String c s' => String c (take_chars n' s')
  end.

Definition substr (start len : nat) (s : string) : string :=
  take_chars len (drop_chars start s).

(** [toUpperCase] on the characters that occur here: the letters a-z are
    moved to A-Z, every other ASCII character is left alone. *)
Definition is_lower (c : ascii) : bool :=
  ((97 <=? N_of_ascii c) && (N_of_ascii c <=? 122))%N.

Definition upper_char (c : ascii) : ascii :=
  if is_lower c then ascii_of_N (N_of_ascii c - 32) else c.

Fixpoint toUpperCase (s : string) : string :=
  match s with
  | EmptyString => EmptyString
  | String c s' => String (upper_char c) (toUpperCase s')
  end.

(** The characters a generated identifier may contain after its prefix. *)
Definition is_upper_alnum (c : ascii) : bool :=
  (((48 <=? N_of_ascii c) && (N_of_ascii c <=? 57))
   || ((65 <=? N_of_ascii c) && (N_of_ascii c <=? 90)))%N.

(** The characters of a radix-36 rendering: digits and lower-case letters. *)
Definition is_radix36_char (c : ascii) : bool :=
  (((48 <=? N_of_ascii c) && (N_of_ascii c <=? 57)) || is_lower c)%N.

Fixpoint all_chars (p : ascii -> bool) (s : string) : bool :=
  match s with
  | EmptyString => true
  | String c s' => p c && all_chars p s'
  end.

End JsString.

(** ** Numbers in [0, 1) and their radix-36 rendering *)

Module JsNumber.

(** [Math.random()] returns a double in [0, 1).  Every such double is a
    multiple of 2^-1074; the ones the generators of the common engines
    return are multiples of 2^-53.  A value is kept as its numerator over
    [2^53]: [num] stands for [num / 2^53]. *)
Definition denominator : N := 2 ^ 53.

Definition in_unit_interval (num : N) : Prop := (num < denominator)%N.

(** The digit characters of [Number.prototype.toString(radix)]. *)
Definition digit_chars : string := "0123456789abcdefghijklmnopqrstuvwxyz".

Definition digit_char (d : N) : ascii :=
  match String.get (N.to_nat d) digit_chars with
  | Some c => c
  | None => "z"%char
  end.

(** The positional expansion of the fraction in radix 36: multiply by the
    radix, emit the integer part, go on with the rest until nothing is
    left.  A multiple of 2^-53 is exhausted after at most 27 digits, since
    every digit consumes two binary places. *)
Fixpoint fraction_digits (fuel : nat) (num : N) : string :=
  match fuel with
  | O => EmptyString
  | S fuel' =>
      if (num =? 0)%N then EmptyString
      else let p := (num * 36)%N in
           String (digit_char (p / denominator))
                  (fraction_digits fuel' (p mod denominator))
  end.

(** The exact rendering of [x = num / 2^53] in radix 36: ["0"] for zero,
    otherwise ["0."] followed by all the digits of the fraction.  This is
    what [x.toString(36)] prints for the values with a short expansion
    (0 and 0.5 among them); for a value with a long expansion the engines
    print fewer digits, the shortest that identify the double, the last
    one rounded, so that nothing is concluded from this function about
    the digits of such a value. *)
Definition toString36 (num : N) : string :=
  if (num =? 0)%N then "0" else "0." ++ fraction_digits 27 num.

End JsNumber.

(** ** Renderings of [Math.random()] in radix 36 *)

Module Rendering.
Import JsString.

(** What [Math.random().toString(36)] can be: ["0"], or ["0."] followed by
    one or more digits of radix 36 (the value is at least 0 and less
    than 1, and a radix other than ten is never printed with an
    exponent). *)
Definition of_unit_interval (rendering : string) : bool :=
  match rendering with
  | String "0" EmptyString => true
  | String "0" (String "." (String c digits)) =>
      all_chars is_radix36_char (String c digits)
  | _ => false
  end.

End Rendering.

(** ** AdminDashboard.generateDoctorId *)

Module DoctorId.
Import JsString.

(** The part of [generateDoctorId] that is the program's own: cut eight
    characters out of the rendering behind its two leading characters,
    upper-case them and put ["DR"] in front. *)
Definition of_rendering (rendering : string) : string :=
  "DR" ++ toUpperCase (substr 2 8 rendering).

(** [generateDoctorId], with the value [Math.random()] returned made an
    argument. *)
Definition generateDoctorId (random : N) : string :=
  of_rendering (JsNumber.toString36 random).

(** The format the specification gives for doctor identifiers, and the
    login form shows as its example (DR8A3F2B1C): ["DR"] and exactly eight
    upper-case alphanumeric characters. *)
Definition well_formed (id : string) : bool :=
  String.prefix "DR" id
  && (String.length (drop_chars 2 id) =? 8)%nat
  && all_chars is_upper_alnum (drop_chars 2 id).

End DoctorId.

(** ** The document store *)

Module Firestore.

(** Field values.  The handlers only ever write strings; [VNull] is what a
    form field that is not there turns into. *)
Inductive value : Type :=
| VString (s : string)
| VNumber (n : Z)
| VBool (b : bool)
| VNull.

#[global] Instance value_eq_dec : EqDecision value.
Proof. solve_decision. Defined.

(** A document is its fields; a collection maps the identifiers the store
    assigned to documents; the database maps names to collections. *)
Abbreviation document := (gmap string value).
Abbreviation collection := (gmap string (gmap string value)).
Abbreviation database := (gmap string (gmap string (gmap string value))).

(** [query(collection(db, name), where(f1, '==', v1), where(f2, '==', v2))] *)
Record Query : Type := query {
  q_collection : string;
  q_where : list (string * value)
}.

Definition where_eq (field : string) (v : value) : string * value :=
  (field, v).

(** A document passes an equality filter when it has the field, with that
    very value. *)
Definition satisfies (data : document) (clause : string * value) : Prop :=
  data !! clause.1 = Some clause.2.

Definition matches (q : Query) (data : document) : Prop :=
  Forall (satisfies data) (q_where q).

#[global] Instance matches_dec q data : Decision (matches q data).
Proof. unfold matches, satisfies. apply _. Defined.

(** A collection that was never written to is empty. *)
Definition docs_of (db : database) (name : string) : collection :=
  default ∅ (db !! name).

(** The identifiers in use, in whatever collection. *)
Definition ids_in_use (db : database) : list string :=
  c ← map_to_list db; (map_to_list c.2).*1.

Fixpoint zeros (n : nat) : string :=
  match n with
  | O => EmptyString
  | S n' => String "0" (zeros n')
  end.

Definition longest (ids : list string) : nat :=
  foldr (fun id n => Nat.max (String.length id) n) 0%nat ids.

(** [addDoc] never writes to a document that exists: the identifier of a
    new document is generated at random and is not in use.  The generator
    is left open here; what it proposes is taken as it is unless it is in
    use, and is then made longer than every identifier in use. *)
Definition fresh_id (db : database) (proposal : string) : string :=
  if decide (proposal ∈ ids_in_use db)
  then proposal +:+ zeros (S (longest (ids_in_use db)))
  else proposal.

(** A query without an ordering of its own returns its documents in
    ascending order of their identifiers, compared byte by byte. *)
Definition id_le (d1 d2 : string * document) : Prop :=
  String.leb d1.1 d2.1 = true.

#[global] Instance id_le_dec d1 d2 : Decision (id_le d1 d2).
Proof. unfold id_le. apply _. Defined.

Definition docs_in_order (c : collection) : list (string * document) :=
  merge_sort id_le (map_to_list c).

(** What [getDocs] resolves with: [querySnapshot.docs], each entry with
    its [id] and its [data()]. *)
Definition run_query (db : database) (q : Query)
  : list (string * document) :=
  filter (λ d, matches q d.2) (docs_in_order (docs_of db (q_collection q))).

(** [addDoc] and [deleteDoc(doc(db, name, id))] on the stored data. *)
Definition add_doc (name id : string) (data : document) (db : database)
  : database :=
  <[name := <[id := data]> (docs_of db name)]> db.

Definition delete_doc (name id : string) (db : database) : database :=
  alter (delete id) name db.

(** The calls a handler can issue. *)
Inductive request : Type :=
| GetDocs (q : Query)
| AddDoc (name : string) (data : document)
| DeleteDoc (name id : string).

(** How an awaited call ends. *)
Inductive outcome (A : Type) : Type :=
| Resolved (a : A)
| Rejected (error : string).
Arguments Resolved {A} a.
Arguments Rejected {A} error.

#[global] Instance Query_eq_dec : EqDecision Query.
Proof. solve_decision. Defined.

#[global] Instance request_eq_dec : EqDecision request.
Proof. solve_decision. Defined.

End Firestore.

(** ** The browser tab *)

Module Browser.
Import Firestore.

(** The closures the handlers pass to [setTimeout], one constructor per
    closure of the source. *)
Inductive callback : Type :=
| Navigate (url : string)
    (* window.location.href = url *)
| AlertAndRestore (message originalText : string)
    (* alert(message); button.textContent = originalText;
       button.disabled = false *)
| SignupCreated (originalText : string)
    (* the same with the account-created message, then
       setActiveTab('login') *)
| SendingCredentials (email originalText : string)
    (* literal version: button.textContent = 'Sending Credentials...';
       setTimeout(..., 2000) *)
| RegistrationDone (email originalText : string)
    (* literal version: the alert, the button restored,
       setActiveTab('login') *)
| HideAlert.
    (* setShowAlert(false) *)

#[global] Instance callback_eq_dec : EqDecision callback.
Proof. solve_decision. Defined.

Record World : Type := mkWorld {
  store : database;
    (* the document store: collection name, document identifier, fields *)
  store_error : option string;
    (* [Some err]: the store rejects the next call with [err] *)
  id_source : nat -> string;
    (* what the generator of document identifiers proposes, in turn *)
  created : nat;
    (* how many of them have been used *)
  requests : list request;
    (* the calls issued to the store so far, oldest first *)
  listening : bool;
    (* the [onSnapshot] subscription on [doctors] is active *)
  localStorage : gmap string string;
    (* client-local storage *)
  href : string;
    (* [window.location.href] *)
  alerts : list string;
    (* the messages shown by [alert], oldest first *)
  console : list string;
    (* the diagnostic channel *)
  timers : list (N * callback);
    (* pending [setTimeout] calls, soonest first, with the time left *)
  clock : N;
    (* milliseconds since the epoch, [Date.now()] *)
  defaultPrevented : bool;
    (* [e.preventDefault()] was called on the event handled *)
  button_textContent : string;
    (* label of the submit control of the submitted form *)
  button_disabled : bool;
    (* whether that control is disabled *)
  activeTab : string;
    (* Login: the tab shown, [login] or [signup] *)
  isCreateDialogOpen : bool;
    (* AdminDashboard: the create dialog is open *)
  showAlert : bool;
    (* AdminDashboard: the banner is visible *)
  alertMessage : string;
    (* AdminDashboard: the text of the banner *)
  doctors : list document;
    (* AdminDashboard: the rows of the doctor table *)
  form_resets : nat
    (* how often [e.target.reset()] ran *)
}.

(** The identifier the next created document gets. *)
Definition auto_id (w : World) : string :=
  fresh_id (store w) (id_source w (created w)).

Definition set_store (x : database) (w : World) : World :=
  mkWorld x (store_error w) (id_source w) (created w) (requests w)
    (listening w) (localStorage w) (href w) (alerts w) (console w)
    (timers w) (clock w) (defaultPrevented w) (button_textContent w)
    (button_disabled w) (activeTab w) (isCreateDialogOpen w) (showAlert w)
    (alertMessage w) (doctors w) (form_resets w).

Definition set_created (x : nat) (w : World) : World :=
  mkWorld (store w) (store_error w) (id_source w) x (requests w)
    (listening w) (localStorage w) (href w) (alerts w) (console w)
    (timers w) (clock w) (defaultPrevented w) (button_textContent w)
    (button_disabled w) (activeTab w) (isCreateDialogOpen w) (showAlert w)
    (alertMessage w) (doctors w) (form_resets w).

Definition set_requests (x : list request) (w : World) : World :=
  mkWorld (store w) (store_error w) (id_source w) (created w) x
    (listening w) (localStorage w) (href w) (alerts w) (console w)
    (timers w) (clock w) (defaultPrevented w) (button_textContent w)
    (button_disabled w) (activeTab w) (isCreateDialogOpen w) (showAlert w)
    (alertMessage w) (doctors w) (form_resets w).

Definition set_listening (x : bool) (w : World) : World :=
  mkWorld (store w) (store_error w) (id_source w) (created w) (requests w) x
    (localStorage w) (href w) (alerts w) (console w) (timers w) (clock w)
    (defaultPrevented w) (button_textContent w) (button_disabled w)
    (activeTab w) (isCreateDialogOpen w) (showAlert w) (alertMessage w)
    (doctors w) (form_resets w).

Definition set_localStorage (x : gmap string string) (w : World) : World :=
  mkWorld (store w) (store_error w) (id_source w) (created w) (requests w)
    (listening w) x (href w) (alerts w) (console w) (timers w) (clock w)
    (defaultPrevented w) (button_textContent w) (button_disabled w)
    (activeTab w) (isCreateDialogOpen w) (showAlert w) (alertMessage w)
    (doctors w) (form_resets w).

Definition set_href (x : string) (w : World) : World :=
  mkWorld (store w) (store_error w) (id_source w) (created w) (requests w)
    (listening w) (localStorage w) x (alerts w) (console w) (timers w)
    (clock w) (defaultPrevented w) (button_textContent w)
    (button_disabled w) (activeTab w) (isCreateDialogOpen w) (showAlert w)
    (alertMessage w) (doctors w) (form_resets w).

Definition set_alerts (x : list string) (w : World) : World :=
  mkWorld (store w) (store_error w) (id_source w) (created w) (requests w)
    (listening w) (localStorage w) (href w) x (console w) (timers w)
    (clock w) (defaultPrevented w) (button_textContent w)
    (button_disabled w) (activeTab w) (isCreateDialogOpen w) (showAlert w)
    (alertMessage w) (doctors w) (form_resets w).

Definition set_console (x : list string) (w : World) : World :=
  mkWorld (store w) (store_error w) (id_source w) (created w) (requests w)
    (listening w) (localStorage w) (href w) (alerts w) x (timers w)
    (clock w) (defaultPrevented w) (button_textContent w)
    (button_disabled w) (activeTab w) (isCreateDialogOpen w) (showAlert w)
    (alertMessage w) (doctors w) (form_resets w).

Definition set_timers (x : list (N * callback)) (w : World) : World :=
  mkWorld (store w) (store_error w) (id_source w) (created w) (requests w)
    (listening w) (localStorage w) (href w) (alerts w) (console w) x
    (clock w) (defaultPrevented w) (button_textContent w)
    (button_disabled w) (activeTab w) (isCreateDialogOpen w) (showAlert w)
    (alertMessage w) (doctors w) (form_resets w).

Definition set_clock (x : N) (w : World) : World :=
  mkWorld (store w) (store_error w) (id_source w) (created w) (requests w)
    (listening w) (localStorage w) (href w) (alerts w) (console w)
    (timers w) x (defaultPrevented w) (button_textContent w)
    (button_disabled w) (activeTab w) (isCreateDialogOpen w) (showAlert w)
    (alertMessage w) (doctors w) (form_resets w).

Definition set_defaultPrevented (x : bool) (w : World) : World :=
  mkWorld (store w) (store_error w) (id_source w) (created w) (requests w)
    (listening w) (localStorage w) (href w) (alerts w) (console w)
    (timers w) (clock w) x (button_textContent w) (button_disabled w)
    (activeTab w) (isCreateDialogOpen w) (showAlert w) (alertMessage w)
    (doctors w) (form_resets w).

Definition set_button_textContent (x : string) (w : World) : World :=
  mkWorld (store w) (store_error w) (id_source w) (created w) (requests w)
    (listening w) (localStorage w) (href w) (alerts w) (console w)
    (timers w) (clock w) (defaultPrevented w) x (button_disabled w)
    (activeTab w) (isCreateDialogOpen w) (showAlert w) (alertMessage w)
    (doctors w) (form_resets w).

Definition set_button_disabled (x : bool) (w : World) : World :=
  mkWorld (store w) (store_error w) (id_source w) (created w) (requests w)
    (listening w) (localStorage w) (href w) (alerts w) (console w)
    (timers w) (clock w) (defaultPrevented w) (button_textContent w) x
    (activeTab w) (isCreateDialogOpen w) (showAlert w) (alertMessage w)
    (doctors w) (form_resets w).

Definition set_activeTab (x : string) (w : World) : World :=
  mkWorld (store w) (store_error w) (id_source w) (created w) (requests w)
    (listening w) (localStorage w) (href w) (alerts w) (console w)
    (timers w) (clock w) (defaultPrevented w) (button_textContent w)
    (button_disabled w) x (isCreateDialogOpen w) (showAlert w)
    (alertMessage w) (doctors w) (form_resets w).

Definition set_isCreateDialogOpen (x : bool) (w : World) : World :=
  mkWorld (store w) (store_error w) (id_source w) (created w) (requests w)
    (listening w) (localStorage w) (href w) (alerts w) (console w)
    (timers w) (clock w) (defaultPrevented w) (button_textContent w)
    (button_disabled w) (activeTab w) x (showAlert w) (alertMessage w)
    (doctors w) (form_resets w).

Definition set_showAlert (x : bool) (w : World) : World :=
  mkWorld (store w) (store_error w) (id_source w) (created w) (requests w)
    (listening w) (localStorage w) (href w) (alerts w) (console w)
    (timers w) (clock w) (defaultPrevented w) (button_textContent w)
    (button_disabled w) (activeTab w) (isCreateDialogOpen w) x
    (alertMessage w) (doctors w) (form_resets w).

Definition set_alertMessage (x : string) (w : World) : World :=
  mkWorld (store w) (store_error w) (id_source w) (created w) (requests w)
    (listening w) (localStorage w) (href w) (alerts w) (console w)
    (timers w) (clock w) (defaultPrevented w) (button_textContent w)
    (button_disabled w) (activeTab w) (isCreateDialogOpen w) (showAlert w) x
    (doctors w) (form_resets w).

Definition set_doctors (x : list document) (w : World) : World :=
  mkWorld (store w) (store_error w) (id_source w) (created w) (requests w)
    (listening w) (localStorage w) (href w) (alerts w) (console w)
    (timers w) (clock w) (defaultPrevented w) (button_textContent w)
    (button_disabled w) (activeTab w) (isCreateDialogOpen w) (showAlert w)
    (alertMessage w) x (form_resets w).

Definition set_form_resets (x : nat) (w : World) : World :=
  mkWorld (store w) (store_error w) (id_source w) (created w) (requests w)
    (listening w) (localStorage w) (href w) (alerts w) (console w)
    (timers w) (clock w) (defaultPrevented w) (button_textContent w)
    (button_disabled w) (activeTab w) (isCreateDialogOpen w) (showAlert w)
    (alertMessage w) (doctors w) x.

(** What the runtime supplies and the handlers only call. *)
Class Runtime : Type := {
  JSON_stringify : document -> string;
  toISOString : N -> string
}.

(** Handlers run in a state monad over the tab. *)
Definition Js (A : Type) : Type := World -> A * World.

#[global] Instance Js_ret : MRet Js := fun _ a w => (a, w).
#[global] Instance Js_bind : MBind Js :=
  fun _ _ k m w => let (a, w') := m w in k a w'.

Definition exec {A : Type} (m : Js A) (w : World) : World := (m w).2.

Definition reads {A : Type} (f : World -> A) : Js A := fun w => (f w, w).
Definition writes (f : World -> World) : Js unit := fun w => (tt, f w).

(** *** DOM, window and console *)

Definition preventDefault : Js unit := writes (set_defaultPrevented true).
Definition get_textContent : Js string := reads button_textContent.
Definition put_textContent (s : string) : Js unit :=
  writes (set_button_textContent s).
Definition put_disabled (b : bool) : Js unit :=
  writes (set_button_disabled b).
Definition alert (msg : string) : Js unit :=
  writes (fun w => set_alerts (alerts w ++ [msg]) w).
Definition console_log (msg : string) : Js unit :=
  writes (fun w => set_console (console w ++ [msg]) w).
Definition console_error (msg : string) : Js unit := console_log msg.
Definition location_assign (url : string) : Js unit := writes (set_href url).
Definition localStorage_setItem (key v : string) : Js unit :=
  writes (fun w => set_localStorage (<[key := v]> (localStorage w)) w).
Definition Date_now : Js N := reads clock.

(** *** Timers.  The queue is kept in firing order: a new timer goes
    behind every pending one that is due no later. *)
Fixpoint enqueue (ms : N) (cb : callback) (ts : list (N * callback))
  : list (N * callback) :=
  match ts with
  | [] => [(ms, cb)]
  | (d, c) :: ts' =>
      if (d <=? ms)%N then (d, c) :: enqueue ms cb ts'
      else (ms, cb) :: (d, c) :: ts'
  end.

Definition setTimeout (cb : callback) (ms : N) : Js unit :=
  writes (fun w => set_timers (enqueue ms cb (timers w)) w).

(** *** React state of the two components *)

Definition setActiveTab (t : string) : Js unit := writes (set_activeTab t).
Definition setIsCreateDialogOpen (b : bool) : Js unit :=
  writes (set_isCreateDialogOpen b).
Definition setShowAlert (b : bool) : Js unit := writes (set_showAlert b).
Definition setAlertMessage (s : string) : Js unit :=
  writes (set_alertMessage s).
Definition setDoctors (rows : list document) : Js unit :=
  writes (set_doctors rows).
Definition form_reset : Js unit :=
  writes (fun w => set_form_resets (S (form_resets w)) w).

(** *** The store, as the handlers reach it *)

Definition issue (r : request) : Js unit :=
  writes (fun w => set_requests (requests w ++ [r]) w).

(** [await getDocs(q)]: the call is issued; it is rejected when the store
    is failing and otherwise resolves with the matching documents. *)
Definition getDocs (q : Query) : Js (outcome (list (string * document))) :=
  issue (GetDocs q) ;;
  err ← reads store_error;
  match err with
  | Some e => mret (Rejected e)
  | None => db ← reads store; mret (Resolved (run_query db q))
  end.

(** The listener of [onSnapshot(collection(db, 'doctors'), ...)]:
    every document becomes a row [{ id: doc.id, ...doc.data() }]; the
    fields of the document are spread last. *)
Definition doctor_row (d : string * document) : document :=
  d.2 ∪ {[ "id" := VString d.1 ]}.

Definition on_doctors_snapshot : Js unit :=
  active ← reads listening;
  if (active : bool) then
    db ← reads store;
    setDoctors (doctor_row <$> map_to_list (docs_of db "doctors"))
  else mret tt.

(** The effect hook of the admin console: subscribing delivers the
    current snapshot, the cleanup unsubscribes. *)
Definition subscribe : Js unit :=
  writes (set_listening true) ;; on_doctors_snapshot.
Definition unsubscribe : Js unit := writes (set_listening false).

(** A write changes the stored data and, when it touches [doctors],
    reaches the subscribed listener. *)
Definition commit (name : string) (f : database -> database) : Js unit :=
  writes (fun w => set_store (f (store w)) w) ;;
  if decide (name = "doctors") then on_doctors_snapshot else mret tt.

(** [await addDoc(collection(db, name), data)]: every call makes a document
    reference with a newly generated identifier, then writes to it. *)
Definition addDoc (name : string) (data : document) : Js (outcome string) :=
  issue (AddDoc name data) ;;
  id ← reads auto_id;
  writes (fun w => set_created (S (created w)) w) ;;
  err ← reads store_error;
  match err with
  | Some e => mret (Rejected e)
  | None => commit name (add_doc name id data) ;; mret (Resolved id)
  end.

(** [await deleteDoc(doc(db, name, id))] *)
Definition deleteDoc (name id : string) : Js (outcome unit) :=
  issue (DeleteDoc name id) ;;
  err ← reads store_error;
  match err with
  | Some e => mret (Rejected e)
  | None => commit name (delete_doc name id) ;; mret (Resolved tt)
  end.

End Browser.

(** ** Timer callbacks and the event loop *)

Module EventLoop.
Import Firestore Browser.

Definition account_created_message : string :=
  "Admin account created successfully! Use your email and password to login.".

Definition registration_message (email : string) : string :=
  "Registration successful! Login credentials have been sent to " ++ email
  ++ ". Please check your email and use the provided credentials to sign in.".

(** The body of each closure. *)
Definition fire (cb : callback) : Js unit :=
  match cb with
  | Navigate url => location_assign url
  | AlertAndRestore message originalText =>
      alert message ;;
      put_textContent originalText ;;
      put_disabled false
  | SignupCreated originalText =>
      alert account_created_message ;;
      put_textContent originalText ;;
      put_disabled false ;;
      setActiveTab "login"
  | SendingCredentials email originalText =>
      put_textContent "Sending Credentials..." ;;
      setTimeout (RegistrationDone email originalText) 2000
  | RegistrationDone email originalText =>
      alert (registration_message email) ;;
      put_textContent originalText ;;
      put_disabled false ;;
      setActiveTab "login"
  | HideAlert => setShowAlert false
  end.

(** One turn of the loop: time moves on to the first pending timer, which
    is taken off the queue and run. *)
Definition fire_next : Js unit :=
  fun w =>
    match timers w with
    | [] => (tt, w)
    | (d, cb) :: ts =>
        fire cb (set_clock (clock w + d)
                  (set_timers ((fun t : N * callback => ((t.1 - d)%N, t.2)) <$> ts)
                    w))
    end.

Fixpoint run_timers (turns : nat) : Js unit :=
  match turns with
  | O => mret tt
  | S n => fire_next ;; run_timers n
  end.

End EventLoop.

(** ** Forms *)

Module Form.

(** [new FormData(e.target)]: the named controls of the form in document
    order; [get] gives the first value under a name, [null] when there is
    none. *)
Abbreviation FormData := (list (string * string)).

Fixpoint get (name : string) (fd : FormData) : option string :=
  match fd with
  | [] => None
  | (k, v) :: fd' => if String.eqb k name then Some v else get name fd'
  end.

(** A form value as a stored field. *)
Definition to_value (v : option string) : Firestore.value :=
  match v with
  | Some s => Firestore.VString s
  | None => Firestore.VNull
  end.

(** A form value inside a template string or [console.log]. *)
Definition show (v : option string) : string := default "null" v.

(** The sign-in form and the admin sign-up form of the login page, and the
    create-doctor form of the admin console, as they are submitted. *)
Definition login_form (role userId password : string) : FormData :=
  [("role", role); ("userId", userId); ("password", password)].

(** The sign-in form of the earlier version has no role control. *)
Definition literal_login_form (userId password : string) : FormData :=
  [("userId", userId); ("password", password)].

Definition signup_form (firstName lastName email password confirmPassword
                        : string) : FormData :=
  [("firstName", firstName); ("lastName", lastName); ("email", email);
   ("password", password); ("confirmPassword", confirmPassword)].

Definition doctor_form (name email username password specialization : string)
  : FormData :=
  [("name", name); ("email", email); ("username", username);
   ("password", password); ("specialization", specialization)].

End Form.

(** ** The login page (store-backed version) *)

Module Login.
Import Firestore Browser EventLoop.

Section Handlers.
Context `{Runtime}.

(** The admin record written by the sign-up branch. *)
Definition adminData (fd : Form.FormData) (now : N) : document :=
  list_to_map
    [("firstName", Form.to_value (Form.get "firstName" fd));
     ("lastName", Form.to_value (Form.get "lastName" fd));
     ("email", Form.to_value (Form.get "email" fd));
     ("password", Form.to_value (Form.get "password" fd));
     ("role", VString "admin");
     ("createdAt", VString (toISOString now));
     ("licenseId",
       VString ("ADMIN_" ++ DecimalString.NilZero.string_of_uint (N.to_uint now)))].

(** The two queries of the sign-in branch, [doctorsQuery] and [adminQuery]. *)
Definition doctorsQuery (userId password : option string) : Query :=
  query "doctors" [where_eq "doctorId" (Form.to_value userId);
                   where_eq "password" (Form.to_value password)].

Definition adminQuery (userId password : option string) : Query :=
  query "admins" [where_eq "email" (Form.to_value userId);
                  where_eq "password" (Form.to_value password)].

(** [handleSubmit(e, isLogin)]; [e.target] is given by its form data, the
    submit button is the one of the tab. *)
Definition handleSubmit (e : Form.FormData) (isLogin : bool) : Js unit :=
  preventDefault ;;
  originalText ← get_textContent;
  if isLogin then
    let userId := Form.get "userId" e in
    let password := Form.get "password" e in
    console_log ("UserId: " ++ Form.show userId
                 ++ " Password: " ++ Form.show password) ;;
    put_textContent "Signing In..." ;;
    put_disabled true ;;
    let role := Form.get "role" e in
    if decide (role = Some "doctor") then
      r ← getDocs (doctorsQuery userId password);
      match r with
      | Resolved querySnapshot =>
          match querySnapshot with
          | doc0 :: _ =>
              let doctorData := doc0.2 in
              localStorage_setItem "currentUser"
                (JSON_stringify (<["id" := VString doc0.1]> doctorData)) ;;
              setTimeout (Navigate "/dashboard") 1500
          | [] =>
              setTimeout
                (AlertAndRestore "Invalid Doctor ID or password!" originalText)
                1500
          end
      | Rejected error =>
          console_error ("Error checking doctor credentials: " ++ error) ;;
          setTimeout
            (AlertAndRestore "Login error. Please try again." originalText)
            1500
      end
    else if decide (userId = Some "user1234" ∧ password = Some "1234"
                    ∧ role = Some "user") then
      setTimeout (Navigate "/user") 1500
    else if decide (role = Some "admin") then
      r ← getDocs (adminQuery userId password);
      match r with
      | Resolved querySnapshot =>
          match querySnapshot with
          | _ :: _ => setTimeout (Navigate "/admindashboard") 1500
          | [] =>
              setTimeout
                (AlertAndRestore "Invalid admin credentials!" originalText)
                1500
          end
      | Rejected error =>
          console_error ("Error checking admin credentials: " ++ error) ;;
          setTimeout
            (AlertAndRestore "Login error. Please try again." originalText)
            1500
      end
    else
      setTimeout
        (AlertAndRestore "Invalid credentials or role mismatch!" originalText)
        1500
  else
    let password := Form.get "password" e in
    let confirmPassword := Form.get "confirmPassword" e in
    if decide (password ≠ confirmPassword) then
      alert "Passwords do not match!"
    else
      put_textContent "Creating Admin Account..." ;;
      put_disabled true ;;
      now ← Date_now;
      r ← addDoc "admins" (adminData e now);
      match r with
      | Resolved _ => setTimeout (SignupCreated originalText) 1500
      | Rejected error =>
          console_error ("Error creating admin account: " ++ error) ;;
          alert "Error creating account. Please try again." ;;
          put_textContent originalText ;;
          put_disabled false
      end.

(** A sign-in attempt followed to its end: the handler, the settled
    promise, then the timer it left. *)
Definition attempt (role userId password : string) : Js unit :=
  handleSubmit (Form.login_form role userId password) true ;;
  run_timers 1.

End Handlers.

End Login.

(** ** The login page (earlier version with literal credentials) *)

Module LiteralLogin.
Import Firestore Browser EventLoop.

Definition handleSubmit (e : Form.FormData) (isLogin : bool) : Js unit :=
  preventDefault ;;
  originalText ← get_textContent;
  if isLogin then
    let userId := Form.get "userId" e in
    let password := Form.get "password" e in
    console_log ("UserId: " ++ Form.show userId
                 ++ " Password: " ++ Form.show password) ;;
    put_textContent "Signing In..." ;;
    put_disabled true ;;
    if decide (userId = Some "doctor123" ∧ password = Some "password") then
      setTimeout (Navigate "/dashboard") 1500
    else if decide (userId = Some "user1234" ∧ password = Some "1234") then
      setTimeout (Navigate "/user") 1500
    else
      setTimeout
        (AlertAndRestore
           "Invalid credentials! Use: doctor123/password or user1234/1234"
           originalText)
        1500
  else
    let email := Form.get "email" e in
    put_textContent "Verifying License..." ;;
    put_disabled true ;;
    setTimeout (SendingCredentials (Form.show email) originalText) 2000.

End LiteralLogin.

(** ** The admin console *)

Module AdminDashboard.
Import Firestore Browser EventLoop.

Section Handlers.
Context `{Runtime}.

(** The component's default for its [currentUser] property. *)
Definition default_currentUser_name : string := "Admin User".

Definition doctorData (fd : Form.FormData) (doctorId : string) (now : N)
    (createdBy : string) : document :=
  list_to_map
    [("doctorId", VString doctorId);
     ("name", Form.to_value (Form.get "name" fd));
     ("email", Form.to_value (Form.get "email" fd));
     ("username", Form.to_value (Form.get "username" fd));
     ("password", Form.to_value (Form.get "password" fd));
     ("specialization", Form.to_value (Form.get "specialization" fd));
     ("role", VString "doctor");
     ("createdAt", VString (toISOString now));
     ("createdBy", VString createdBy)].

(** [handleCreateDoctor(e)], with the value of [Math.random()] and the name
    of the current user made arguments. *)
Definition handleCreateDoctor (e : Form.FormData) (random : N)
    (currentUser_name : string) : Js unit :=
  preventDefault ;;
  let doctorId := DoctorId.generateDoctorId random in
  now ← Date_now;
  r ← addDoc "doctors" (doctorData e doctorId now currentUser_name);
  match r with
  | Resolved _ =>
      setIsCreateDialogOpen false ;;
      setAlertMessage ("Doctor " ++ Form.show (Form.get "name" e)
                       ++ " created successfully with ID: " ++ doctorId) ;;
      setShowAlert true ;;
      setTimeout HideAlert 3000 ;;
      form_reset
  | Rejected _ =>
      setAlertMessage "Error creating doctor account" ;;
      setShowAlert true ;;
      setTimeout HideAlert 3000
  end.

End Handlers.

(** [handleDeleteDoctor(doctorId, doctorName)] *)
Definition handleDeleteDoctor (doctorId doctorName : string) : Js unit :=
  r ← deleteDoc "doctors" doctorId;
  match r with
  | Resolved _ =>
      setAlertMessage ("Doctor " ++ doctorName ++ " has been deleted") ;;
      setShowAlert true ;;
      setTimeout HideAlert 3000
  | Rejected _ =>
      setAlertMessage "Error deleting doctor" ;;
      setShowAlert true ;;
      setTimeout HideAlert 3000
  end.

End AdminDashboard.

(** ** Sample tabs, to evaluate the handlers on *)

Module Sample.
Import Firestore Browser.

Definition show_value (v : value) : string :=
  match v with
  | VString s => s
  | VNumber n => DecimalString.NilZero.string_of_int (Z.to_int n)
  | VBool true => "true"
  | VBool false => "false"
  | VNull => "null"
  end.

(** A stand-in for the serializer and the date formatter of the runtime. *)
Definition stringify (d : document) : string :=
  "{" +:+ String.concat ","
            ((fun kv : string * value => kv.1 +:+ ":" +:+ show_value kv.2)
               <$> map_to_list d)
  +:+ "}".

#[local] Instance runtime : Runtime := {|
  JSON_stringify := stringify;
  toISOString now :=
    "T+" +:+ DecimalString.NilZero.string_of_uint (N.to_uint now)
|}.

Definition doctor_record : document :=
  list_to_map
    [("doctorId", VString "DR8A3F2B1C"); ("name", VString "Asha Rao");
     ("email", VString "asha@clinic.example"); ("username", VString "asha");
     ("password", VString "pw123"); ("specialization", VString "ayurveda");
     ("role", VString "doctor");
     ("createdAt", VString "2024-09-01T08:00:00.000Z");
     ("createdBy", VString "Admin User")].

Definition other_doctor_record : document :=
  list_to_map
    [("doctorId", VString "DRK2M9X0QP"); ("name", VString "Vikram Shah");
     ("email", VString "vikram@clinic.example"); ("username", VString "vik");
     ("password", VString "s3cret"); ("specialization", VString "nutrition");
     ("role", VString "doctor");
     ("createdAt", VString "2024-09-02T08:00:00.000Z");
     ("createdBy", VString "Admin User")].

Definition admin_record : document :=
  list_to_map
    [("firstName", VString "Ann"); ("lastName", VString "Bee");
     ("email", VString "a@b.com"); ("password", VString "right");
     ("role", VString "admin");
     ("createdAt", VString "2024-08-30T08:00:00.000Z");
     ("licenseId", VString "ADMIN_1725004800000")].

Definition records : database :=
  {[ "doctors" := {[ "Zk3v9QpLw2" := doctor_record;
                     "b7Hq2MtR5x" := other_doctor_record ]};
     "admins" := {[ "p0Xa7Tn4Bc" := admin_record ]} ]}.

(** The identifiers the sample store hands out. *)
Definition identifiers (n : nat) : string :=
  match n with
  | O => "n3wDocument"
  | S O => "an0therDoc"
  | S (S k) => "doc" +:+ DecimalString.NilZero.string_of_uint (Nat.to_uint k)
  end.

(** An idle tab showing the login page with its sign-in button, over a
    given store that is up or failing. *)
Definition tab (db : database) (failure : option string) : World :=
  mkWorld db failure identifiers 0 [] false ∅ "/login" [] [] []
    1725148800000 false " Sign In " false "login" false false EmptyString
    [] 0.

Definition idle : World := tab records None.
Definition empty_store : World := tab ∅ None.
Definition unreachable : World := tab records (Some "unavailable").

End Sample.

(** ** The role selector of the login page (store-backed version) *)

Module RoleSelect.

(** What [handleRoleChange] writes: the [selectedRole] state, and the label
    and the input of the identifier field. *)
Record Widget : Type := mkWidget {
  selectedRole : string;
  userIdLabel_textContent : string;
  userIdInput_placeholder : string;
  userIdInput_type : string
}.

(** [handleRoleChange(e)], with [e.target.value] as argument. *)
Definition handleRoleChange (role : string) (u : Widget) : Widget :=
  if decide (role = "admin") then
    mkWidget role "📧 Email" "Enter your email" "email"
  else if decide (role = "doctors") then
    mkWidget role "🆔 Doctor ID" "Enter Doctor ID (e.g., DR8A3F2B1C)" "text"
  else
    mkWidget role "📧 Licence ID" "Enter licence Id" "text".

(** The values of the options of the role control, and the field as it is
    first rendered. *)
Definition role_options : list string :=
  [EmptyString; "doctor"; "user"; "admin"].

Definition initial : Widget :=
  mkWidget EmptyString "📧 Licence ID" "Enter licence Id" "text".

End RoleSelect.

(** ** The role selector of the earlier login page *)

Module LiteralRoleSelect.

(** The [selectedRole] state, the [display] style of each element of class
    [doctor-only], and the [required] flags of the licence input and of the
    specialization control. *)
Record Fields : Type := mkFields {
  selectedRole : string;
  doctorFields_display : list string;
  licenseInput_required : bool;
  specializationSelect_required : bool
}.

Definition handleRoleChange (role : string) (f : Fields) : Fields :=
  if decide (role = "doctor") then
    mkFields role ((fun _ => "block") <$> doctorFields_display f) true true
  else
    mkFields role ((fun _ => "none") <$> doctorFields_display f) false false.

(** The sign-up form as rendered: two hidden doctor-only groups, nothing
    required of them. *)
Definition initial : Fields :=
  mkFields EmptyString ["none"; "none"] false false.

End LiteralRoleSelect.

(** ** The doctor dashboard: side bar and greeting *)

Module DashboardMenu.

(** [menuItems], each with its [id] and its [label]. *)
Definition menuItems : list (string * string) :=
  [("dashboard", "Dashboard"); ("patients", "Patients");
   ("dietplans", "Diet Plans"); ("recipes", "Recipes");
   ("settings", "Settings")].

Definition initial_activeSection : string := "dashboard".

(** The class of the button of a menu item. *)
Definition nav_className (activeSection : string) (item : string * string)
  : string :=
  "nav-item " +:+ (if decide (activeSection = item.1) then "active"
                   else EmptyString).

(** The children of [content-body] that are rendered. *)
Definition content_body (activeSection : string) : list string :=
  (if decide (activeSection = "dashboard") then ["Overall"] else [])
  ++ (if decide (activeSection = "patients") then ["Patients Content"]
      else [])
  ++ (if decide (activeSection = "dietplans") then ["Diet Plans Content"]
      else [])
  ++ (if decide (activeSection = "recipes") then ["Recipes Content"] else [])
  ++ (if decide (activeSection = "settings") then ["Settings Content"]
      else []).

(** [onClick] of a menu item: [setActiveSection(item.id)]. *)
Definition click (item : string * string) (activeSection : string) : string :=
  item.1.

End DashboardMenu.

Module Overall.
Import Firestore Browser.

(** What [JSON.parse] can do with a stored text: throw, give an object, or
    give a value that is no object ([null], a number, a string, ...). *)
Inductive parsed : Type :=
| Threw
| Object (o : document)
| NotAnObject.

#[global] Instance parsed_eq_dec : EqDecision parsed.
Proof. solve_decision. Defined.

Class Parser : Type := { JSON_parse : string -> parsed }.

(** Truthiness of a field value. *)
Definition truthy (v : value) : bool :=
  match v with
  | VString EmptyString => false
  | VString _ => true
  | VNumber n => negb (n =? 0)%Z
  | VBool b => b
  | VNull => false
  end.

Definition initial_doctorName : value := VString EmptyString.

(** The effect run when the greeting is mounted: the new [doctorName]
    state, or [None] when [JSON.parse] throws.  With no item stored
    [getItem] gives [null], which parses to [null]. *)
Definition effect `{Parser} (w : World) (doctorName : value) : option value :=
  match localStorage w !! "currentUser" with
  | None => Some doctorName
  | Some text =>
      match JSON_parse text with
      | Threw => None
      | NotAnObject => Some doctorName
      | Object currentUser =>
          match currentUser !! "name" with
          | Some name => if truthy name then Some name else Some doctorName
          | None => Some doctorName
          end
      end
  end.

End Overall.

(** ** The route table *)

Module App.

(** The routes of [App], path and element, in the version with the admin
    console and in the earlier one. *)
Definition routes : list (string * string) :=
  [("/", "LandingPage"); ("/login", "Login"); ("/dashboard", "Dashboard");
   ("user", "User"); ("admindashboard", "AdminDashboard")].

Definition earlier_routes : list (string * string) :=
  [("/", "LandingPage"); ("/login", "Login"); ("/dashboard", "Dashboard");
   ("user", "User")].

(** The path of a top-level route from the root: a path without a leading
    slash is relative to it. *)
Definition absolute (path : string) : string :=
  match path with
  | String "/" _ => path
  | _ => "/" +:+ path
  end.

(** The element of the route whose path from the root is the pathname
    itself.  A pathname spelled like the path of a route is served by that
    route; the router accepts other spellings of the same path as well
    (another case, trailing slashes, percent-encoding), which this lookup
    does not know, so that [None] says nothing about the router. *)
Definition route_at (table : list (string * string)) (pathname : string)
  : option string :=
  snd <$> List.find (fun r => String.eqb (absolute r.1) pathname) table.

End App.

(** ** The delete button of a row of the doctor table *)

Module DoctorTable.
Import Firestore Browser.

(** [doctor.id] as the delete button passes it to [handleDeleteDoctor]:
    the string under [id] of the row. *)
Definition row_id (row : document) : option string :=
  match row !! "id" with
  | Some (VString s) => Some s
  | _ => None
  end.


End DoctorTable.

(** ** Further sample data *)

Module Scenario.
Import Firestore Browser.

(** The marker of the sample doctor, and a runtime that parses its text
    back. *)
Definition marker : document :=
  <["id" := VString "Zk3v9QpLw2"]> Sample.doctor_record.

#[local] Instance parser : Overall.Parser := {|
  Overall.JSON_parse text :=
    if String.eqb text (Sample.stringify marker) then Overall.Object marker
    else Overall.Threw
|}.

(** A doctor record that has a field [id] of its own, as an import from
    another system could have left it, in a store of its own. *)
Definition imported_record : document :=
  <["id" := VString "b7Hq2MtR5x"]> Sample.doctor_record.

Definition imported : World :=
  Sample.tab
    {[ "doctors" := {[ "Zk3v9QpLw2" := imported_record;
                       "b7Hq2MtR5x" := Sample.other_doctor_record ]} ]}
    None.

Definition new_doctor : Form.FormData :=
  Form.doctor_form "Meera Nair" "meera@clinic.example" "meera" "t0psecret"
    "ayurveda".

End Scenario.

(** * Properties *)

Import Firestore Browser EventLoop.

Open Scope list_scope.

(** ** Running handlers on a symbolic tab *)

Ltac js_unfold :=
  cbv [exec mbind mret Js_bind Js_ret reads writes
       preventDefault get_textContent put_textContent put_disabled alert
       console_log console_error location_assign localStorage_setItem
       Date_now setTimeout setActiveTab setIsCreateDialogOpen setShowAlert
       setAlertMessage setDoctors form_reset issue getDocs addDoc deleteDoc
       commit on_doctors_snapshot auto_id fire fire_next run_timers].

Ltac js_run := js_unfold; cbn.

(** Split on every test the handler makes: its guards, the state of the
    store, the result of the query; use that the tab was idle. *)
Ltac js_cases :=
  repeat (cbn;
    match goal with
    | H : timers ?w = [] |- context [timers ?w] => rewrite H
    | H : store_error ?w = _ |- context [store_error ?w] => rewrite H
    | H : listening ?w = _ |- context [listening ?w] => rewrite H
    | H : run_query ?db ?q = _ |- context [run_query ?db ?q] => rewrite H
    | |- context [decide ?P] =>
        destruct (decide P); destruct_and?; simplify_eq; try done
    | |- context [match store_error ?w with _ => _ end] =>
        destruct (store_error w) eqn:?
    | |- context [if listening ?w then _ else _] =>
        destruct (listening w) eqn:?
    | |- context [match run_query ?db ?q with _ => _ end] =>
        destruct (run_query db q) as [|[??]?] eqn:?
    end);
  cbn.

(** ** The store: what a query returns *)

Lemma elem_of_run_query (db : database) (q : Query) (id : string)
    (data : document) :
  (id, data) ∈ run_query db q
  ↔ docs_of db (q_collection q) !! id = Some data ∧ matches q data.
Proof.
  unfold run_query, docs_in_order.
  rewrite list_elem_of_filter, merge_sort_Permutation, elem_of_map_to_list.
  cbn. tauto.
Qed.

Lemma NoDup_run_query (db : database) (q : Query) : NoDup (run_query db q).
Proof.
  apply NoDup_filter. unfold docs_in_order.
  rewrite merge_sort_Permutation. apply NoDup_map_to_list.
Qed.

(** The order of identifiers is a total preorder, so that the results of
    a query are sorted by it. *)
Lemma string_leb_trans (s1 s2 s3 : string) :
  String.leb s1 s2 = true -> String.leb s2 s3 = true ->
  String.leb s1 s3 = true.
Proof.
  unfold String.leb. revert s2 s3.
  induction s1 as [|c1 s1 IH]; intros [|c2 s2] [|c3 s3]; cbn; try done.
  unfold Ascii.compare.
  destruct (N.compare_spec (N_of_ascii c1) (N_of_ascii c2)) as [E12 | L12 | G12];
    destruct (N.compare_spec (N_of_ascii c2) (N_of_ascii c3))
      as [E23 | L23 | G23];
    destruct (N.compare_spec (N_of_ascii c1) (N_of_ascii c3))
      as [E13 | L13 | G13];
    try done; try lia.
  apply IH.
Qed.

Lemma id_le_total : Total id_le.
Proof. intros d1 d2. apply String.leb_total. Qed.

Lemma id_le_trans : Transitive id_le.
Proof. intros d1 d2 d3. apply string_leb_trans. Qed.

Lemma StronglySorted_filter {A : Type} (R : relation A) (P : A -> Prop)
    `{∀ x, Decision (P x)} (l : list A) :
  StronglySorted R l -> StronglySorted R (filter P l).
Proof.
  induction 1 as [|x l Hs IH Hx]; [constructor |].
  rewrite filter_cons. case_decide; [| done].
  constructor; [done |]. apply Forall_forall.
  intros y [_ Hy]%list_elem_of_filter.
  rewrite Forall_forall in Hx. by apply Hx.
Qed.

Lemma run_query_sorted (db : database) (q : Query) :
  StronglySorted id_le (run_query db q).
Proof.
  apply StronglySorted_filter, StronglySorted_merge_sort;
    [exact id_le_trans | exact id_le_total].
Qed.

(** The first result is a stored record that matches, the one with the
    least identifier. *)
Lemma run_query_first (db : database) (q : Query) (id : string)
    (data : document) (rest : list (string * document)) :
  run_query db q = (id, data) :: rest ->
  docs_of db (q_collection q) !! id = Some data
  ∧ matches q data
  ∧ ∀ id' data', docs_of db (q_collection q) !! id' = Some data' ->
                 matches q data' -> String.leb id id' = true.
Proof.
  intros Hq.
  assert (Hone : (id, data) ∈ run_query db q)
    by (rewrite Hq; apply list_elem_of_here).
  apply elem_of_run_query in Hone as [Hl Hm]. split_and!; [done | done |].
  intros id' data' Hl' Hm'.
  assert (Hin : (id', data') ∈ run_query db q) by (by apply elem_of_run_query).
  pose proof (run_query_sorted db q) as Hs. rewrite Hq in Hs, Hin.
  apply StronglySorted_inv in Hs as [_ Hall].
  apply elem_of_cons in Hin as [Heq | Hin].
  - simplify_eq. destruct (String.leb_total id id); done.
  - rewrite Forall_forall in Hall. exact (Hall _ Hin).
Qed.

(** "Exactly one stored record matches": the query returns that record and
    nothing else. *)
Lemma run_query_exactly_one (db : database) (q : Query) (id : string)
    (data : document) :
  run_query db q = [(id, data)]
  ↔ docs_of db (q_collection q) !! id = Some data
    ∧ matches q data
    ∧ ∀ id' data', docs_of db (q_collection q) !! id' = Some data' ->
                   matches q data' -> id' = id.
Proof.
  split.
  - intros Hq.
    assert (Hone : (id, data) ∈ run_query db q)
      by (rewrite Hq; apply list_elem_of_here).
    apply elem_of_run_query in Hone as [Hl Hm].
    split_and!; [done | done |].
    intros id' data' Hl' Hm'.
    assert (Hother : (id', data') ∈ run_query db q)
      by (by apply elem_of_run_query).
    rewrite Hq in Hother. apply list_elem_of_singleton in Hother.
    congruence.
  - intros (Hl & Hm & Huniq).
    assert (Hone : (id, data) ∈ run_query db q)
      by (by apply elem_of_run_query).
    assert (Hall : ∀ d, d ∈ run_query db q -> d = (id, data)).
    { intros [id' data'] [Hl' Hm']%elem_of_run_query.
      assert (id' = id) by eauto. subst. congruence. }
    pose proof (NoDup_run_query db q) as Hnd.
    destruct (run_query db q) as [|d1 [|d2 l]].
    + by apply elem_of_nil in Hone.
    + f_equal. apply Hall, list_elem_of_here.
    + exfalso. apply NoDup_cons in Hnd as [Hnotin _].
      apply Hnotin.
      rewrite (Hall d1) by apply list_elem_of_here.
      rewrite (Hall d2) by apply list_elem_of_further, list_elem_of_here.
      apply list_elem_of_here.
Qed.

(** "No stored record matches": the query returns nothing. *)
Lemma run_query_none (db : database) (q : Query) :
  run_query db q = []
  ↔ ∀ id data, docs_of db (q_collection q) !! id = Some data ->
               ¬ matches q data.
Proof.
  split.
  - intros Hq id data Hl Hm.
    assert (Hone : (id, data) ∈ run_query db q)
      by (by apply elem_of_run_query).
    rewrite Hq in Hone. by apply elem_of_nil in Hone.
  - intros Hnone. destruct (run_query db q) as [|[id data] l] eqn:Hq; [done |].
    assert (Hone : (id, data) ∈ run_query db q)
      by (rewrite Hq; apply list_elem_of_here).
    apply elem_of_run_query in Hone as [Hl Hm]. by destruct (Hnone id data).
Qed.

(** The marker written at a doctor's sign-in holds every field of the
    record under its own name, except that [id] holds the document
    identifier. *)
Lemma marker_fields (id : string) (data : document) (field : string) :
  (<["id" := VString id]> data : document) !! field
  = if decide (field = "id") then Some (VString id) else data !! field.
Proof.
  case_decide; [subst; apply lookup_insert_eq | by apply lookup_insert_ne].
Qed.

Section LoginProperties.
Context `{Runtime}.

(** The tab after a sign-up whose two passwords differ: the event has its
    default prevented, the alert is shown, and that is all. *)
Lemma signup_mismatch_state
    (firstName lastName email password confirmPassword : string) (w : World) :
  password ≠ confirmPassword ->
  exec (Login.handleSubmit
          (Form.signup_form firstName lastName email password confirmPassword)
          false) w
  = set_alerts (alerts w ++ ["Passwords do not match!"])
      (set_defaultPrevented true w).
Proof.
  intros Hne. unfold Login.handleSubmit. js_run.
  rewrite decide_True by congruence. reflexivity.
Qed.

(** C1 (as amended): a sign-in that matches exactly one stored record
    succeeds without an alert.  For a doctor the record's fields, with [id]
    set to the document identifier, are serialized into local storage under
    [currentUser] and the tab goes to [/dashboard]; for an admin the tab
    goes to [/admindashboard] and local storage is left as it was. *)
Theorem login_success_marker_and_route
    (role uid pw id : string) (data : document) (w : World) :
  timers w = [] ->
  store_error w = None ->
  (role = "doctor"
   ∧ run_query (store w) (Login.doctorsQuery (Some uid) (Some pw))
     = [(id, data)])
  ∨ (role = "admin"
     ∧ run_query (store w) (Login.adminQuery (Some uid) (Some pw))
       = [(id, data)]) ->
  let w' := exec (Login.attempt role uid pw) w in
  alerts w' = alerts w
  ∧ timers w' = []
  ∧ (role = "doctor" ->
     href w' = "/dashboard"
     ∧ localStorage w'
       = <["currentUser" := JSON_stringify (<["id" := VString id]> data)]>
           (localStorage w))
  ∧ (role = "admin" ->
     href w' = "/admindashboard" ∧ localStorage w' = localStorage w).
Proof.
  intros Ht He Hq w'. subst w'.
  unfold Login.attempt, Login.handleSubmit. js_run.
  destruct Hq as [[-> Hq] | [-> Hq]]; js_cases; simplify_eq.
  all: repeat split; intros; simplify_eq; done.
Qed.

(** C3 (as amended): apart from the literal pair of the user role, a
    sign-in that matches no stored record ends with one alert, nothing
    written to local storage, no navigation, and the submit button enabled
    again under its original label. *)
Theorem login_no_match_fails (role uid pw : string) (w : World) :
  timers w = [] ->
  ¬ (role = "user" ∧ uid = "user1234" ∧ pw = "1234") ->
  (role = "doctor" ->
   run_query (store w) (Login.doctorsQuery (Some uid) (Some pw)) = []) ->
  (role = "admin" ->
   run_query (store w) (Login.adminQuery (Some uid) (Some pw)) = []) ->
  let w' := exec (Login.attempt role uid pw) w in
  (∃ message, alerts w' = alerts w ++ [message])
  ∧ localStorage w' = localStorage w
  ∧ href w' = href w
  ∧ button_textContent w' = button_textContent w
  ∧ button_disabled w' = false
  ∧ timers w' = [].
Proof.
  intros Ht Hlit Hd Ha w'. subst w'.
  unfold Login.attempt, Login.handleSubmit. js_run.
  destruct (decide (role = "doctor")) as [-> | Hnd];
    [specialize (Hd eq_refl); clear Ha | clear Hd].
  2: destruct (decide (role = "admin")) as [-> | Hna];
    [specialize (Ha eq_refl) | clear Ha].
  all: js_cases; try (exfalso; apply Hlit; done);
    (split; [eexists; reflexivity | done]).
Qed.

(** C4: when the two passwords of the sign-up form differ, the handler
    shows the mismatch alert and stops; no call reaches the store and the
    stored data are what they were. *)
Theorem signup_mismatch_issues_no_write
    (firstName lastName email password confirmPassword : string) (w : World) :
  password ≠ confirmPassword ->
  let w' := exec (Login.handleSubmit
                    (Form.signup_form firstName lastName email password
                                      confirmPassword) false) w in
  alerts w' = alerts w ++ ["Passwords do not match!"]
  ∧ requests w' = requests w
  ∧ store w' = store w
  ∧ timers w' = timers w.
Proof.
  intros Hne w'. subst w'. rewrite signup_mismatch_state by done. done.
Qed.

(** C9: on a password mismatch the handler returns before it touches the
    submit button: label and disabled flag are unchanged, no timer is
    started, the tab shown stays, and apart from the alert (and the
    default action of the event being prevented) the whole tab is as it
    was. *)
Theorem signup_mismatch_leaves_form_untouched
    (firstName lastName email password confirmPassword : string) (w : World) :
  password ≠ confirmPassword ->
  let w' := exec (Login.handleSubmit
                    (Form.signup_form firstName lastName email password
                                      confirmPassword) false) w in
  button_textContent w' = button_textContent w
  ∧ button_disabled w' = button_disabled w
  ∧ timers w' = timers w
  ∧ activeTab w' = activeTab w
  ∧ w' = set_alerts (alerts w ++ ["Passwords do not match!"])
           (set_defaultPrevented true w).
Proof.
  intros Hne w'. subst w'. rewrite signup_mismatch_state by done. done.
Qed.

(** C5 (as amended): the user branch of the store-backed verifier accepts
    one literal pair, user1234/1234, and nothing else; the earlier version of
    the handler accepts two, doctor123/password and user1234/1234, whatever
    else the form holds.  Neither issues a call to the store. *)
Theorem literal_credentials (uid pw : string) (w : World) :
  (let w' := exec (Login.handleSubmit (Form.login_form "user" uid pw) true) w in
   requests w' = requests w
   ∧ timers w'
     = enqueue 1500
         (if decide (uid = "user1234" ∧ pw = "1234") then Navigate "/user"
          else AlertAndRestore "Invalid credentials or role mismatch!"
                 (button_textContent w))
         (timers w))
  ∧ (let w' := exec (LiteralLogin.handleSubmit
                       (Form.literal_login_form uid pw) true) w in
     requests w' = requests w
     ∧ timers w'
       = enqueue 1500
           (if decide (uid = "doctor123" ∧ pw = "password")
            then Navigate "/dashboard"
            else if decide (uid = "user1234" ∧ pw = "1234")
            then Navigate "/user"
            else AlertAndRestore
                   "Invalid credentials! Use: doctor123/password or user1234/1234"
                   (button_textContent w))
           (timers w)).
Proof.
  split.
  - unfold Login.handleSubmit. js_run. js_cases; naive_solver.
  - unfold LiteralLogin.handleSubmit. js_run. js_cases; naive_solver.
Qed.

(** C6 (as amended): a sign-in can fail in three ways.  A query that
    raises gives the retry-later alert; an empty result gives the
    invalid-credentials alert of the role; and an attempt that is neither
    for a doctor nor for an admin, and is not the literal pair of the user
    role, fails with the role-mismatch alert without any call to the
    store.  Each failure shows exactly its alert, enables the button again
    under its original label and leaves the tab where it was; every other
    attempt shows no alert and navigates.  A doctor's or an admin's attempt
    issues its one query and no other call, so nothing is retried, and
    nothing is left pending. *)
Theorem login_failure_kinds (role uid pw : string) (w : World) :
  timers w = [] ->
  let w' := exec (Login.attempt role uid pw) w in
  let restored :=
    button_textContent w' = button_textContent w
    ∧ button_disabled w' = false ∧ href w' = href w in
  let literal := role = "user" ∧ uid = "user1234" ∧ pw = "1234" in
  (role = "doctor" ->
   requests w'
   = requests w ++ [GetDocs (Login.doctorsQuery (Some uid) (Some pw))]
   ∧ match store_error w with
     | Some _ =>
         alerts w' = alerts w ++ ["Login error. Please try again."] ∧ restored
     | None =>
         match run_query (store w)
                 (Login.doctorsQuery (Some uid) (Some pw)) with
         | [] =>
             alerts w' = alerts w ++ ["Invalid Doctor ID or password!"]
             ∧ restored
         | _ :: _ => alerts w' = alerts w ∧ href w' = "/dashboard"
         end
     end)
  ∧ (role = "admin" ->
     requests w'
     = requests w ++ [GetDocs (Login.adminQuery (Some uid) (Some pw))]
     ∧ match store_error w with
       | Some _ =>
           alerts w' = alerts w ++ ["Login error. Please try again."]
           ∧ restored
       | None =>
           match run_query (store w)
                   (Login.adminQuery (Some uid) (Some pw)) with
           | [] =>
               alerts w' = alerts w ++ ["Invalid admin credentials!"]
               ∧ restored
           | _ :: _ => alerts w' = alerts w ∧ href w' = "/admindashboard"
           end
       end)
  ∧ (role ≠ "doctor" -> role ≠ "admin" ->
     requests w' = requests w
     ∧ (literal -> alerts w' = alerts w ∧ href w' = "/user")
     ∧ (¬ literal ->
        alerts w' = alerts w ++ ["Invalid credentials or role mismatch!"]
        ∧ restored))
  ∧ timers w' = [].
Proof.
  intros Ht w' restored literal. subst restored literal w'.
  unfold Login.attempt, Login.handleSubmit. js_run.
  js_cases.
  all: repeat (first [apply conj | intro]); destruct_and?; simplify_eq;
    try done.
  all: exfalso; naive_solver.
Qed.

(** C7: a sign-in as doctor or as admin issues one query, on [doctors] or
    on [admins], whose equality filters are exactly two: the identifier
    field of the role ([doctorId], [email]) and [password]. *)
Theorem login_query_filters (uid pw : string) (w : World) :
  requests (exec (Login.handleSubmit (Form.login_form "doctor" uid pw) true) w)
  = requests w
    ++ [GetDocs {| q_collection := "doctors";
                   q_where := [("doctorId", VString uid);
                               ("password", VString pw)] |}]
  ∧ requests (exec (Login.handleSubmit (Form.login_form "admin" uid pw) true) w)
    = requests w
      ++ [GetDocs {| q_collection := "admins";
                     q_where := [("email", VString uid);
                                 ("password", VString pw)] |}].
Proof.
  split; unfold Login.handleSubmit; js_run; js_cases; try done; naive_solver.
Qed.

End LoginProperties.

(** ** The admin console *)

#[local] Arguments delete_doc : simpl never.
#[local] Arguments add_doc : simpl never.
#[local] Arguments fresh_id : simpl never.

Lemma docs_of_delete_doc (name id name' : string) (db : database) :
  docs_of (delete_doc name id db) name'
  = if decide (name = name') then delete id (docs_of db name')
    else docs_of db name'.
Proof.
  unfold docs_of, delete_doc. rewrite lookup_alter.
  case_decide; [subst | done].
  destruct (db !! name') as [c|]; cbn; [done | by rewrite delete_empty].
Qed.

Section AdminProperties.
Context `{Runtime}.

(** C8: a deletion request names one document of [doctors].  When the
    store accepts it, that document is gone and every other document of
    every collection is what it was, the table of a subscribed console is
    the new snapshot, and the banner confirms the deletion; when the store
    rejects it nothing is deleted and the banner shows the generic error. *)
Theorem delete_doctor_removes_exactly_that_document
    (doctorId doctorName : string) (w : World) :
  let w' := exec (AdminDashboard.handleDeleteDoctor doctorId doctorName) w in
  requests w' = requests w ++ [DeleteDoc "doctors" doctorId]
  ∧ showAlert w' = true
  ∧ match store_error w with
    | None =>
        docs_of (store w') "doctors" !! doctorId = None
        ∧ (∀ name id, (name, id) ≠ ("doctors", doctorId) ->
             docs_of (store w') name !! id = docs_of (store w) name !! id)
        ∧ alertMessage w' = "Doctor " +:+ doctorName +:+ " has been deleted"
        ∧ (listening w = true ->
           doctors w'
           = doctor_row
               <$> map_to_list (delete doctorId (docs_of (store w) "doctors")))
    | Some _ =>
        store w' = store w
        ∧ alertMessage w' = "Error deleting doctor"
        ∧ doctors w' = doctors w
    end.
Proof.
  intros w'. subst w'. unfold AdminDashboard.handleDeleteDoctor. js_run.
  js_cases; rewrite ?docs_of_delete_doc, ?decide_True by done;
    repeat split; try done; try apply lookup_delete_eq.
  all: try (intros name id Hne; rewrite docs_of_delete_doc; case_decide; subst;
    [apply lookup_delete_ne; congruence | done]).
Qed.

(** C10: creating and deleting a doctor, accepted or rejected by the
    store, show the banner and start one timer of 3000 milliseconds whose
    callback hides it; on an idle console the banner is hidden exactly 3000
    milliseconds later. *)
Theorem admin_banner_auto_dismiss
    (e : Form.FormData) (random : N) (currentUser_name : string)
    (doctorId doctorName : string) (w : World) :
  (let w' := exec (AdminDashboard.handleCreateDoctor e random currentUser_name)
                  w in
   showAlert w' = true
   ∧ timers w' = enqueue 3000 HideAlert (timers w)
   ∧ (timers w = [] ->
      showAlert (exec (run_timers 1) w') = false
      ∧ clock (exec (run_timers 1) w') = (clock w + 3000)%N))
  ∧ (let w' := exec (AdminDashboard.handleDeleteDoctor doctorId doctorName) w in
     showAlert w' = true
     ∧ timers w' = enqueue 3000 HideAlert (timers w)
     ∧ (timers w = [] ->
        showAlert (exec (run_timers 1) w') = false
        ∧ clock (exec (run_timers 1) w') = (clock w + 3000)%N))
  ∧ (∀ w0, showAlert (exec (fire HideAlert) w0) = false).
Proof.
  split; [| split; [| done]].
  - unfold AdminDashboard.handleCreateDoctor. js_run.
    js_cases; (split; [done | split; [done |]]); intros ->; done.
  - unfold AdminDashboard.handleDeleteDoctor. js_run.
    js_cases; (split; [done | split; [done |]]); intros ->; done.
Qed.

End AdminProperties.

(** ** Doctor identifiers *)

Module DoctorIdFacts.
Import JsString JsNumber DoctorId.

Lemma digit_char_radix36 (d : N) :
  (d < 36)%N -> is_radix36_char (digit_char d) = true.
Proof.
  intros Hd. rewrite <- (N2Nat.id d).
  assert (Hn : (N.to_nat d < 36)%nat) by lia.
  generalize dependent (N.to_nat d). intros n Hn.
  do 36 (destruct n as [|n]; [reflexivity |]). lia.
Qed.

Lemma upper_char_alnum (c : ascii) :
  is_radix36_char c = true -> is_upper_alnum (upper_char c) = true.
Proof.
  destruct c as [[] [] [] [] [] [] [] []]; vm_compute; congruence.
Qed.

Lemma fraction_digits_radix36 (fuel : nat) (num : N) :
  in_unit_interval num ->
  all_chars is_radix36_char (fraction_digits fuel num) = true.
Proof.
  unfold in_unit_interval. revert num.
  induction fuel as [|fuel IH]; intros num Hnum; [reflexivity |].
  cbn [fraction_digits]. destruct (num =? 0)%N; [reflexivity |].
  cbn [all_chars]. apply andb_true_intro. split.
  - apply digit_char_radix36.
    apply N.Div0.div_lt_upper_bound. unfold denominator in *. lia.
  - apply IH. apply N.mod_lt. unfold denominator. lia.
Qed.

Lemma all_chars_take (p : ascii -> bool) (n : nat) (s : string) :
  all_chars p s = true -> all_chars p (take_chars n s) = true.
Proof.
  revert s. induction n as [|n IH]; intros [|c s]; cbn; try done.
  intros [Hc Hs]%andb_prop. by rewrite Hc, IH.
Qed.

Lemma all_chars_upper (s : string) :
  all_chars is_radix36_char s = true ->
  all_chars is_upper_alnum (toUpperCase s) = true.
Proof.
  induction s as [|c s IH]; cbn; [done |].
  intros [Hc Hs]%andb_prop. by rewrite upper_char_alnum, IH.
Qed.

Lemma length_take_chars (n : nat) (s : string) :
  String.length (take_chars n s) = Nat.min n (String.length s).
Proof.
  revert s. induction n as [|n IH]; intros [|c s]; cbn; try done.
  by rewrite IH.
Qed.

Lemma length_toUpperCase (s : string) :
  String.length (toUpperCase s) = String.length s.
Proof. induction s as [|c s IH]; cbn; [done | by rewrite IH]. Qed.

(** Twenty-seven digits exhaust every multiple of 2^-53: each digit takes
    two binary places off the numerator. *)
Lemma next_numerator_divisible (j num : N) :
  (j + 2 <= 53)%N ->
  (2 ^ j | num)%N ->
  (2 ^ (j + 2) | (num * 36) mod denominator)%N.
Proof.
  intros Hj [c ->]. unfold denominator.
  replace (c * 2 ^ j * 36)%N with (c * 9 * 2 ^ (j + 2))%N
    by (rewrite N.pow_add_r; change (2 ^ 2)%N with 4%N; ring).
  replace (2 ^ 53)%N with (2 ^ (53 - (j + 2)) * 2 ^ (j + 2))%N
    by (rewrite <- N.pow_add_r; f_equal; lia).
  rewrite N.Div0.mul_mod_distr_r. apply N.divide_factor_r.
Qed.

Lemma next_numerator_zero (j num : N) :
  (53 <= j + 2)%N ->
  (2 ^ j | num)%N ->
  ((num * 36) mod denominator = 0)%N.
Proof.
  intros Hj [c ->]. unfold denominator.
  replace (c * 2 ^ j * 36)%N with (c * 9 * 2 ^ (j + 2 - 53) * 2 ^ 53)%N.
  - apply N.Div0.mod_mul.
  - rewrite <- !N.mul_assoc, <- N.pow_add_r.
    replace (j + 2 - 53 + 53)%N with (j + 2)%N by lia.
    rewrite N.pow_add_r. change (2 ^ 2)%N with 4%N. ring.
Qed.

Lemma fraction_digits_zero (fuel : nat) : fraction_digits fuel 0 = EmptyString.
Proof. by destruct fuel. Qed.

Lemma fraction_digits_exhausted (fuel extra : nat) (j num : N) :
  (2 ^ j | num)%N ->
  in_unit_interval num ->
  (53 <= j + 2 * N.of_nat fuel)%N ->
  fraction_digits (fuel + extra) num = fraction_digits fuel num.
Proof.
  unfold in_unit_interval. revert j num.
  induction fuel as [|fuel IH]; intros j num Hdiv Hnum Hj.
  - assert (num = 0%N) as ->.
    { destruct Hdiv as [c ->]. unfold denominator in Hnum.
      assert (Hpow : (2 ^ 53 <= 2 ^ j)%N) by (apply N.pow_le_mono_r; lia).
      revert Hnum Hpow. generalize (2 ^ 53)%N (2 ^ j)%N. intros a b.
      destruct (N.eq_dec c 0%N) as [-> |]; [reflexivity | nia]. }
    apply fraction_digits_zero.
  - cbn [Nat.add fraction_digits]. destruct (num =? 0)%N; [done |].
    cbn zeta. f_equal.
    destruct (decide (j + 2 <= 53)%N) as [Hle | Hgt].
    + apply (IH (j + 2)%N); [by apply next_numerator_divisible | | lia].
      apply N.mod_lt. unfold denominator. lia.
    + rewrite (next_numerator_zero j num) by (done || lia).
      by rewrite !fraction_digits_zero.
Qed.

(** More fuel than 27 changes nothing. *)
Lemma fraction_digits_enough (extra : nat) (num : N) :
  in_unit_interval num ->
  fraction_digits (27 + extra) num = fraction_digits 27 num.
Proof.
  intros Hnum. apply (fraction_digits_exhausted 27 extra 0 num); [| done | lia].
  apply N.divide_1_l.
Qed.

(** What a rendering of a value of the unit interval looks like. *)
Lemma of_unit_interval_inv (rendering : string) :
  Rendering.of_unit_interval rendering = true ->
  rendering = "0"
  ∨ ∃ digits, rendering = "0." +:+ digits
              ∧ (1 <= String.length digits)%nat
              ∧ all_chars is_radix36_char digits = true.
Proof.
  unfold Rendering.of_unit_interval.
  destruct rendering as [|a rendering]; [done |].
  destruct a as [[] [] [] [] [] [] [] []]; try done.
  destruct rendering as [|b rendering]; [by left |].
  destruct b as [[] [] [] [] [] [] [] []]; try done.
  destruct rendering as [|c digits]; [done |].
  intros Hdigits. right. exists (String c digits).
  split_and!; [done | cbn; lia | done].
Qed.

(** The exact rendering of the model is one of them. *)
Lemma toString36_of_unit_interval (random : N) :
  in_unit_interval random ->
  Rendering.of_unit_interval (toString36 random) = true.
Proof.
  intros Hr. unfold toString36.
  destruct (random =? 0)%N eqn:E; [reflexivity |].
  pose proof (fraction_digits_radix36 27 random Hr) as Hdigits.
  change 27%nat with (S 26) in *. cbn [fraction_digits] in *.
  rewrite E in *. exact Hdigits.
Qed.

(** What the program makes of the digits of a rendering: the prefix, then
    as many characters as there are digits, eight at most, all of them
    upper-case alphanumeric. *)
Lemma of_rendering_shape (digits : string) :
  all_chars is_radix36_char digits = true ->
  ∃ t, of_rendering ("0." +:+ digits) = "DR" +:+ t
       ∧ String.length t = Nat.min 8 (String.length digits)
       ∧ all_chars is_upper_alnum t = true.
Proof.
  intros Hdigits. eexists. split; [reflexivity |].
  unfold substr. cbn [drop_chars append]. split.
  - by rewrite length_toUpperCase, length_take_chars.
  - by apply all_chars_upper, all_chars_take.
Qed.

End DoctorIdFacts.

(** C2 (the code falls short of it): [Math.random()] can return 0.5, whose
    rendering in radix 36 is ["0.i"]; the identifier generated from it is
    ["DRI"], one character behind the prefix instead of eight.  For 0 the
    identifier is the bare prefix. *)
Theorem generateDoctorId_short_fraction :
  JsNumber.in_unit_interval (2 ^ 52)
  ∧ JsNumber.toString36 (2 ^ 52) = "0.i"
  ∧ DoctorId.generateDoctorId (2 ^ 52) = "DRI"
  ∧ DoctorId.well_formed (DoctorId.generateDoctorId (2 ^ 52)) = false
  ∧ DoctorId.generateDoctorId 0 = "DR".
Proof.
  split; [unfold JsNumber.in_unit_interval, JsNumber.denominator; lia |].
  repeat split; vm_compute; reflexivity.
Qed.

(** A rendering of the usual length gives an identifier of the documented
    format. *)
Example of_rendering_typical :
  DoctorId.of_rendering "0.nzk0d76cu6n" = "DRNZK0D76C"
  ∧ DoctorId.well_formed "DRNZK0D76C" = true.
Proof. split; vm_compute; reflexivity. Qed.

(** ** The properties on the sample tabs *)

(** C1, the scenario of the specification: doctor DR8A3F2B1C signs in with
    pw123, one stored record matches. *)
Lemma login_success_doctor_scenario :
  let w' := exec (Login.attempt (H := Sample.runtime)
                    "doctor" "DR8A3F2B1C" "pw123") Sample.idle in
  href w' = "/dashboard"
  ∧ localStorage w' !! "currentUser"
    = Some (Sample.stringify
              (<["id" := VString "Zk3v9QpLw2"]> Sample.doctor_record))
  ∧ alerts w' = [].
Proof.
  destruct (login_success_marker_and_route (H := Sample.runtime)
              "doctor" "DR8A3F2B1C" "pw123" "Zk3v9QpLw2" Sample.doctor_record
              Sample.idle)
    as (Halerts & _ & Hdoctor & _);
    [reflexivity | reflexivity
     | left; split; [reflexivity | compute_done] |].
  destruct (Hdoctor eq_refl) as [Hhref Hstorage].
  split; [exact Hhref |].
  split; [rewrite Hstorage; apply lookup_insert_eq | exact Halerts].
Defined.

(** C1 as stated fails for the admin role: the one matching admin record
    is found and the tab goes to the admin console, but nothing is stored
    under [currentUser]. *)
Lemma admin_login_writes_no_marker :
  let w' := exec (Login.attempt (H := Sample.runtime)
                    "admin" "a@b.com" "right") Sample.idle in
  store_error Sample.idle = None
  ∧ run_query (store Sample.idle)
      (Login.adminQuery (Some "a@b.com") (Some "right"))
    = [("p0Xa7Tn4Bc", Sample.admin_record)]
  ∧ href w' = "/admindashboard"
  ∧ localStorage w' !! "currentUser" = None.
Proof. cbv zeta. repeat apply conj; compute_done. Qed.

(** C3 on the sample tab: a doctor identifier that no record carries. *)
Lemma login_no_match_scenario :
  let w' := exec (Login.attempt (H := Sample.runtime)
                    "doctor" "DR00000000" "pw123") Sample.idle in
  (∃ message, alerts w' = [message])
  ∧ localStorage w' = ∅
  ∧ href w' = "/login"
  ∧ button_textContent w' = " Sign In "
  ∧ button_disabled w' = false
  ∧ timers w' = [].
Proof.
  apply (login_no_match_fails (H := Sample.runtime)
           "doctor" "DR00000000" "pw123" Sample.idle).
  - reflexivity.
  - intros (Hrole & _). discriminate Hrole.
  - intros _. compute_done.
  - intros Hrole. discriminate Hrole.
Defined.

(** C3 as stated fails for the literal pair of the user role: with no
    record stored at all the attempt is accepted; no alert is shown, the
    tab goes to [/user] and the button stays disabled under its sign-in
    label. *)
Lemma literal_user_pair_needs_no_record :
  let w' := exec (Login.attempt (H := Sample.runtime)
                    "user" "user1234" "1234") Sample.empty_store in
  store Sample.empty_store = ∅
  ∧ run_query (store Sample.empty_store)
      (Login.doctorsQuery (Some "user1234") (Some "1234")) = []
  ∧ run_query (store Sample.empty_store)
      (Login.adminQuery (Some "user1234") (Some "1234")) = []
  ∧ alerts w' = []
  ∧ href w' = "/user"
  ∧ button_disabled w' = true
  ∧ button_textContent w' = "Signing In...".
Proof. cbv zeta. repeat apply conj; compute_done. Qed.

(** C4, the scenario of the specification: abc123 against abc124. *)
Lemma signup_mismatch_scenario :
  let w' := exec (Login.handleSubmit (H := Sample.runtime)
                    (Form.signup_form "Ann" "Bee" "a@b.com" "abc123" "abc124")
                    false) Sample.idle in
  alerts w' = ["Passwords do not match!"]
  ∧ requests w' = []
  ∧ store w' = Sample.records
  ∧ timers w' = [].
Proof.
  apply (signup_mismatch_issues_no_write (H := Sample.runtime)
           "Ann" "Bee" "a@b.com" "abc123" "abc124" Sample.idle).
  intros Heq. discriminate Heq.
Defined.

(** C9 on the sample tab. *)
Lemma signup_mismatch_form_scenario :
  let w' := exec (Login.handleSubmit (H := Sample.runtime)
                    (Form.signup_form "Ann" "Bee" "a@b.com" "abc123" "abc124")
                    false) Sample.idle in
  button_textContent w' = " Sign In "
  ∧ button_disabled w' = false
  ∧ timers w' = []
  ∧ activeTab w' = "login"
  ∧ w' = set_alerts ["Passwords do not match!"]
           (set_defaultPrevented true Sample.idle).
Proof.
  apply (signup_mismatch_leaves_form_untouched (H := Sample.runtime)
           "Ann" "Bee" "a@b.com" "abc123" "abc124" Sample.idle).
  intros Heq. discriminate Heq.
Defined.

(** C5 as stated fails: in the user branch of the store-backed verifier the
    pair doctor123/password is turned away like any other; only the earlier
    version of the handler accepts it. *)
Lemma user_branch_rejects_second_pair :
  let w' := exec (Login.attempt (H := Sample.runtime)
                    "user" "doctor123" "password") Sample.idle in
  let v' := exec (LiteralLogin.handleSubmit
                    (Form.literal_login_form "doctor123" "password") true ;;
                  run_timers 1) Sample.idle in
  alerts w' = ["Invalid credentials or role mismatch!"]
  ∧ href w' = "/login"
  ∧ button_disabled w' = false
  ∧ alerts v' = []
  ∧ href v' = "/dashboard".
Proof. cbv zeta. repeat apply conj; compute_done. Qed.

(** C6, the scenario of the specification: admin a@b.com with the wrong
    password, against a store that answers. *)
Lemma login_failure_kinds_scenario :
  let w' := exec (Login.attempt (H := Sample.runtime)
                    "admin" "a@b.com" "wrong") Sample.idle in
  requests w' = [GetDocs (Login.adminQuery (Some "a@b.com") (Some "wrong"))]
  ∧ alerts w' = ["Invalid admin credentials!"]
  ∧ button_textContent w' = " Sign In "
  ∧ button_disabled w' = false
  ∧ href w' = "/login".
Proof.
  destruct (login_failure_kinds (H := Sample.runtime)
              "admin" "a@b.com" "wrong" Sample.idle eq_refl)
    as (_ & Hadmin & _).
  destruct (Hadmin eq_refl) as [Hrequests Houtcome].
  assert (Hq : run_query (store Sample.idle)
                 (Login.adminQuery (Some "a@b.com") (Some "wrong")) = [])
    by compute_done.
  change (store_error Sample.idle) with (@None string) in Houtcome.
  rewrite Hq in Houtcome. split; [exact Hrequests | exact Houtcome].
Defined.

(** C6 as the specification words it fails on the third way: the user
    role with a wrong password.  The store is up and is not asked
    anything, so that the failure is neither an empty result nor a query
    that raised; the alert is a third message, and the form is enabled
    again as after the other two. *)
Lemma login_fails_without_query :
  let w := Sample.idle in
  let w' := exec (Login.attempt (H := Sample.runtime)
                    "user" "user1234" "wrong") w in
  store_error w = None
  ∧ requests w' = requests w
  ∧ alerts w' = ["Invalid credentials or role mismatch!"]
  ∧ button_textContent w' = button_textContent w
  ∧ button_disabled w' = false
  ∧ href w' = href w.
Proof. cbv zeta. repeat apply conj; compute_done. Qed.

(** The same admin, now with the right password, against a store that
    cannot be reached. *)
Example login_store_failure_scenario :
  let w' := exec (Login.attempt (H := Sample.runtime)
                    "admin" "a@b.com" "right") Sample.unreachable in
  alerts w' = ["Login error. Please try again."]
  ∧ button_disabled w' = false
  ∧ localStorage w' = ∅
  ∧ requests w'
    = [GetDocs (Login.adminQuery (Some "a@b.com") (Some "right"))].
Proof. cbv zeta. repeat apply conj; compute_done. Qed.

(** C8 and C10 on the sample tab: one of the two doctors is deleted from a
    subscribed console. *)
Example delete_doctor_scenario :
  let w := exec subscribe Sample.idle in
  let w' := exec (AdminDashboard.handleDeleteDoctor "Zk3v9QpLw2" "Asha Rao") w in
  length (doctors w) = 2
  ∧ docs_of (store w') "doctors" = {[ "b7Hq2MtR5x" := Sample.other_doctor_record ]}
  ∧ docs_of (store w') "admins" = docs_of (store w) "admins"
  ∧ doctors w' = [doctor_row ("b7Hq2MtR5x", Sample.other_doctor_record)]
  ∧ alertMessage w' = "Doctor Asha Rao has been deleted"
  ∧ showAlert w' = true
  ∧ showAlert (exec (run_timers 1) w') = false.
Proof. cbv zeta. repeat apply conj; compute_done. Qed.

(** Creating a doctor on the sample tab, accepted and rejected by the
    store. *)
Example create_doctor_scenario :
  let e := Form.doctor_form "Meera Nair" "meera@clinic.example" "meera"
             "t0psecret" "ayurveda" in
  let create := AdminDashboard.handleCreateDoctor (H := Sample.runtime)
                  e 0x1552869a6b3740 AdminDashboard.default_currentUser_name in
  let w' := exec create Sample.idle in
  let v' := exec create Sample.unreachable in
  docs_of (store w') "doctors" !! "n3wDocument"
  = Some (AdminDashboard.doctorData (H := Sample.runtime) e "DRNZK0D76C"
            1725148800000 "Admin User")
  ∧ alertMessage w'
    = "Doctor Meera Nair created successfully with ID: DRNZK0D76C"
  ∧ showAlert w' = true
  ∧ timers w' = [(3000%N, HideAlert)]
  ∧ form_resets w' = 1
  ∧ store v' = Sample.records
  ∧ alertMessage v' = "Error creating doctor account"
  ∧ showAlert v' = true
  ∧ timers v' = [(3000%N, HideAlert)]
  ∧ form_resets v' = 0.
Proof. cbv zeta. repeat apply conj; compute_done. Qed.

(** * Further properties of the handlers *)

(** ** Writes to the store *)

Lemma docs_of_add_doc (name id name' : string) (data : document)
    (db : database) :
  docs_of (add_doc name id data db) name'
  = if decide (name = name') then <[id := data]> (docs_of db name')
    else docs_of db name'.
Proof.
  unfold docs_of at 1. unfold add_doc. case_decide.
  - subst. by rewrite lookup_insert_eq.
  - by rewrite lookup_insert_ne.
Qed.

(** The identifier of a new document is not in use: [addDoc] always
    creates a document and never replaces one. *)
Lemma elem_of_ids_in_use (db : database) (id : string) :
  id ∈ ids_in_use db ↔ ∃ name, is_Some (docs_of db name !! id).
Proof.
  unfold ids_in_use, docs_of. rewrite list_elem_of_bind. split.
  - intros ([name c] & Hid & Hc%elem_of_map_to_list). cbn in Hid.
    apply list_elem_of_fmap in Hid as ([id' data] & -> & Hd%elem_of_map_to_list).
    exists name. rewrite Hc. cbn. by eexists.
  - intros (name & data & Hd). destruct (db !! name) as [c|] eqn:Hc; [| done].
    exists (name, c). split; [| by apply elem_of_map_to_list].
    apply list_elem_of_fmap. exists (id, data).
    split; [done | by apply elem_of_map_to_list].
Qed.

Lemma length_append (s1 s2 : string) :
  String.length (s1 +:+ s2) = String.length s1 + String.length s2.
Proof.
  induction s1 as [|c s1 IH]; [done |].
  change (S (String.length (s1 +:+ s2))
          = S (String.length s1 + String.length s2)).
  by rewrite IH.
Qed.

Lemma length_zeros (n : nat) : String.length (zeros n) = n.
Proof. induction n as [|n IH]; cbn; [done | by rewrite IH]. Qed.

Lemma length_le_longest (ids : list string) (id : string) :
  id ∈ ids -> String.length id <= longest ids.
Proof.
  induction 1 as [id ids | id id' ids Hin IH].
  - change (longest (id :: ids))
      with (Nat.max (String.length id) (longest ids)). lia.
  - change (longest (id' :: ids))
      with (Nat.max (String.length id') (longest ids)). lia.
Qed.

Lemma fresh_id_not_in_use (db : database) (proposal : string) :
  fresh_id db proposal ∉ ids_in_use db.
Proof.
  unfold fresh_id. case_decide; [| done].
  intros Hin%length_le_longest.
  rewrite length_append, length_zeros in Hin. lia.
Qed.

Lemma auto_id_fresh (w : World) (name : string) :
  docs_of (store w) name !! auto_id w = None.
Proof.
  apply eq_None_not_Some. intros Hsome.
  apply (fresh_id_not_in_use (store w) (id_source w (created w))).
  apply elem_of_ids_in_use. by exists name.
Qed.

(** A record just added is among the results of every query on its
    collection whose filters it passes. *)
Lemma run_query_add_doc (name id : string) (data : document) (db : database)
    (q : Query) :
  q_collection q = name ->
  matches q data ->
  (id, data) ∈ run_query (add_doc name id data db) q.
Proof.
  intros Hname Hm. apply elem_of_run_query. split; [| done].
  rewrite Hname, docs_of_add_doc, decide_True by done.
  apply lookup_insert_eq.
Qed.

Lemma run_query_cons_inv (db : database) (q : Query) (id : string)
    (data : document) (rest : list (string * document)) :
  run_query db q = (id, data) :: rest ->
  docs_of db (q_collection q) !! id = Some data ∧ matches q data.
Proof.
  intros Hq. apply elem_of_run_query. rewrite Hq. apply list_elem_of_here.
Qed.

Section SignUp.
Context `{Runtime}.

Lemma adminData_fields (e : Form.FormData) (now : N) :
  Login.adminData e now !! "email" = Some (Form.to_value (Form.get "email" e))
  ∧ Login.adminData e now !! "password"
    = Some (Form.to_value (Form.get "password" e))
  ∧ Login.adminData e now !! "role" = Some (VString "admin")
  ∧ Login.adminData e now !! "licenseId"
    = Some (VString ("ADMIN_" +:+ NilZero.string_of_uint (N.to_uint now))).
Proof. unfold Login.adminData. cbn. repeat split; by simplify_map_eq. Qed.


(** X1: a sign-up whose two passwords agree issues one [addDoc] on [admins]
    and no query.  When the store accepts it, the record (with the password
    as typed and the role [admin]) is stored under the identifier the store
    assigned, and 1500 ms later the success alert is shown and the sign-in
    tab is opened; when the store rejects it, the error alert is shown at
    once, nothing is stored and the tab stays.  Either way the button ends
    enabled under its original label. *)
Theorem signup_creates_admin
    (firstName lastName email password : string) (w : World) :
  timers w = [] ->
  let e := Form.signup_form firstName lastName email password password in
  let record := Login.adminData e (clock w) in
  let w' := exec (Login.handleSubmit e false ;; run_timers 1) w in
  requests w' = requests w ++ [AddDoc "admins" record]
  ∧ record !! "email" = Some (VString email)
  ∧ record !! "password" = Some (VString password)
  ∧ record !! "role" = Some (VString "admin")
  ∧ match store_error w with
    | None =>
        store w' = add_doc "admins" (auto_id w) record (store w)
        ∧ alerts w' = alerts w ++ [account_created_message]
        ∧ activeTab w' = "login"
        ∧ clock w' = (clock w + 1500)%N
    | Some _ =>
        store w' = store w
        ∧ alerts w' = alerts w ++ ["Error creating account. Please try again."]
        ∧ activeTab w' = activeTab w
        ∧ clock w' = clock w
    end
  ∧ button_textContent w' = button_textContent w
  ∧ button_disabled w' = false
  ∧ localStorage w' = localStorage w
  ∧ href w' = href w
  ∧ timers w' = [].
Proof.
  intros Ht e record w'. subst w' record.
  destruct (adminData_fields e (clock w)) as (Hemail & Hpassword & Hrole & _).
  split_and!; [| exact Hemail | exact Hpassword | exact Hrole | ..].
  all: unfold Login.handleSubmit; js_run.
  all: rewrite decide_False by (intros Hne; by apply Hne).
  all: js_cases; done.
Qed.

(** X2: the account a sign-up has stored opens the admin console: on any
    tab over the store as the sign-up left it, signing in as admin with the
    same email and password succeeds. *)
Theorem signup_then_admin_login
    (firstName lastName email password : string) (w w2 : World) :
  store_error w = None ->
  store w2
  = store (exec (Login.handleSubmit
                   (Form.signup_form firstName lastName email password
                                     password) false) w) ->
  store_error w2 = None ->
  timers w2 = [] ->
  let w' := exec (Login.attempt "admin" email password) w2 in
  href w' = "/admindashboard" ∧ alerts w' = alerts w2 ∧ timers w' = [].
Proof.
  intros He Hstore He2 Ht2 w'. subst w'.
  assert (Hin : ∃ id data,
             (id, data) ∈ run_query (store w2)
                            (Login.adminQuery (Some email) (Some password))).
  { exists (auto_id w),
      (Login.adminData
         (Form.signup_form firstName lastName email password password)
         (clock w)).
    rewrite Hstore. unfold Login.handleSubmit. js_run.
    rewrite decide_False by (intros Hne; by apply Hne).
    js_cases. apply run_query_add_doc; [done |].
    destruct (adminData_fields
                (Form.signup_form firstName lastName email password password)
                (clock w)) as (Hemail & Hpassword & _).
    constructor; [exact Hemail |]. constructor; [exact Hpassword |].
    constructor. }
  destruct Hin as (id & data & Hin).
  unfold Login.attempt, Login.handleSubmit. js_run. js_cases; try done.
  by apply elem_of_nil in Hin.
Qed.


End SignUp.

(** ** Doctors: creation, the table, sign-in *)

Section Doctors.
Context `{Runtime}.

Lemma doctorData_fields (e : Form.FormData) (doctorId : string) (now : N)
    (createdBy : string) :
  AdminDashboard.doctorData e doctorId now createdBy !! "doctorId"
  = Some (VString doctorId)
  ∧ AdminDashboard.doctorData e doctorId now createdBy !! "password"
    = Some (Form.to_value (Form.get "password" e))
  ∧ AdminDashboard.doctorData e doctorId now createdBy !! "role"
    = Some (VString "doctor")
  ∧ AdminDashboard.doctorData e doctorId now createdBy !! "createdBy"
    = Some (VString createdBy)
  ∧ AdminDashboard.doctorData e doctorId now createdBy !! "id" = None.
Proof.
  unfold AdminDashboard.doctorData. cbn. repeat split; by simplify_map_eq.
Qed.

(** A doctor's sign-in whose query has results: the marker is made of
    the first of them, and the tab goes to the dashboard. *)
Lemma doctor_login_first_match (uid pw id : string) (data : document)
    (rest : list (string * document)) (w : World) :
  store_error w = None ->
  timers w = [] ->
  run_query (store w) (Login.doctorsQuery (Some uid) (Some pw))
  = (id, data) :: rest ->
  let w' := exec (Login.attempt "doctor" uid pw) w in
  href w' = "/dashboard"
  ∧ alerts w' = alerts w
  ∧ localStorage w'
    = <["currentUser" := JSON_stringify (<["id" := VString id]> data)]>
        (localStorage w).
Proof.
  intros He Ht Hq w'. subst w'.
  unfold Login.attempt, Login.handleSubmit. js_run. js_cases; done.
Qed.

(** X4: after a doctor's successful sign-in the object serialized under
    [currentUser] is made of the first result of the query: a stored
    doctor record, the one with the least document identifier among those
    that match, with [id] set to that identifier; it carries the doctor
    identifier and the password exactly as they were typed. *)
Theorem doctor_marker_holds_credentials (uid pw id0 : string)
    (data0 : document) (w : World) :
  store_error w = None ->
  timers w = [] ->
  docs_of (store w) "doctors" !! id0 = Some data0 ->
  matches (Login.doctorsQuery (Some uid) (Some pw)) data0 ->
  let q := Login.doctorsQuery (Some uid) (Some pw) in
  let w' := exec (Login.attempt "doctor" uid pw) w in
  href w' = "/dashboard"
  ∧ ∃ id data rest (marker : document),
      run_query (store w) q = (id, data) :: rest
      ∧ docs_of (store w) "doctors" !! id = Some data
      ∧ (∀ id' data', docs_of (store w) "doctors" !! id' = Some data' ->
                      matches q data' -> String.leb id id' = true)
      ∧ marker = <["id" := VString id]> data
      ∧ localStorage w'
        = <["currentUser" := JSON_stringify marker]> (localStorage w)
      ∧ marker !! "doctorId" = Some (VString uid)
      ∧ marker !! "password" = Some (VString pw).
Proof.
  intros He Ht Hl0 Hm0 q w'. subst q w'.
  assert (Hin : (id0, data0)
                ∈ run_query (store w) (Login.doctorsQuery (Some uid) (Some pw)))
    by (by apply elem_of_run_query).
  destruct (run_query (store w) (Login.doctorsQuery (Some uid) (Some pw)))
    as [|[id data] rest] eqn:Hq; [by apply elem_of_nil in Hin |].
  destruct (run_query_first _ _ _ _ _ Hq) as (Hl & Hm & Hleast).
  apply Forall_cons in Hm as [Hid Hm]. apply Forall_cons in Hm as [Hpw _].
  destruct (doctor_login_first_match uid pw id data rest w He Ht Hq)
    as (Hhref & _ & Hls).
  split; [exact Hhref |].
  exists id, data, rest, (<["id" := VString id]> data).
  split_and!; try done.
  - by rewrite lookup_insert_ne.
  - by rewrite lookup_insert_ne.
Qed.

(** X5: a doctor account the admin console has created can sign in: on
    any tab over the store as the creation left it, the generated
    identifier and the password of the form lead to the dashboard, with a
    marker that carries this identifier. *)
Theorem created_doctor_can_sign_in (e : Form.FormData) (random : N)
    (currentUser_name pw : string) (w w2 : World) :
  Form.get "password" e = Some pw ->
  store_error w = None ->
  store w2
  = store (exec (AdminDashboard.handleCreateDoctor e random currentUser_name)
                w) ->
  store_error w2 = None ->
  timers w2 = [] ->
  let doctorId := DoctorId.generateDoctorId random in
  let w' := exec (Login.attempt "doctor" doctorId pw) w2 in
  href w' = "/dashboard"
  ∧ ∃ marker : document,
      localStorage w' !! "currentUser" = Some (JSON_stringify marker)
      ∧ marker !! "doctorId" = Some (VString doctorId).
Proof.
  intros Hpw He Hstore He2 Ht2 doctorId w'. subst w'.
  set (record := AdminDashboard.doctorData e doctorId (clock w)
                   currentUser_name).
  assert (Hin : (auto_id w, record)
                ∈ run_query (store w2)
                    (Login.doctorsQuery (Some doctorId) (Some pw))).
  { rewrite Hstore. unfold AdminDashboard.handleCreateDoctor. js_run.
    js_cases; (apply run_query_add_doc; [done |]).
    all: destruct (doctorData_fields e doctorId (clock w) currentUser_name)
           as (Hid & Hpassword & _); rewrite Hpw in Hpassword.
    all: constructor; [exact Hid |]; constructor; [exact Hpassword |];
           constructor. }
  destruct (run_query (store w2) (Login.doctorsQuery (Some doctorId) (Some pw)))
    as [|[id data] rest] eqn:Hq; [by apply elem_of_nil in Hin |].
  destruct (run_query_cons_inv _ _ _ _ _ Hq) as [_ Hm].
  apply Forall_cons in Hm as [Hid _].
  destruct (doctor_login_first_match doctorId pw id data rest w2 He2 Ht2 Hq)
    as (Hhref & _ & Hls).
  split; [exact Hhref |]. exists (<["id" := VString id]> data). split.
  - rewrite Hls. apply lookup_insert_eq.
  - by rewrite lookup_insert_ne.
Qed.

(** X6: what creating a doctor does besides the banner.  Accepted by the
    store: one [addDoc] on [doctors]; the record, carrying the generated
    identifier, the role [doctor] and the name of the current user, is
    stored under the identifier the store assigned and every other
    document is untouched; the dialog is closed, the form is reset once, and
    a subscribed table shows the new row.  Rejected: nothing is stored, the
    dialog stays as it was, the form is not reset, the table is unchanged. *)
Theorem create_doctor_effects (e : Form.FormData) (random : N)
    (currentUser_name : string) (w : World) :
  let doctorId := DoctorId.generateDoctorId random in
  let record := AdminDashboard.doctorData e doctorId (clock w)
                  currentUser_name in
  let w' := exec (AdminDashboard.handleCreateDoctor e random currentUser_name)
                 w in
  requests w' = requests w ++ [AddDoc "doctors" record]
  ∧ record !! "doctorId" = Some (VString doctorId)
  ∧ record !! "role" = Some (VString "doctor")
  ∧ record !! "createdBy" = Some (VString currentUser_name)
  ∧ match store_error w with
    | None =>
        docs_of (store w') "doctors" !! auto_id w = Some record
        ∧ (∀ name id, (name, id) ≠ ("doctors", auto_id w) ->
             docs_of (store w') name !! id = docs_of (store w) name !! id)
        ∧ isCreateDialogOpen w' = false
        ∧ form_resets w' = S (form_resets w)
        ∧ (listening w = true -> doctor_row (auto_id w, record) ∈ doctors w')
        ∧ (listening w = false -> doctors w' = doctors w)
    | Some _ =>
        store w' = store w
        ∧ isCreateDialogOpen w' = isCreateDialogOpen w
        ∧ form_resets w' = form_resets w
        ∧ doctors w' = doctors w
    end.
Proof.
  intros doctorId record w'. subst w'.
  destruct (doctorData_fields e doctorId (clock w) currentUser_name)
    as (Hid & _ & Hrole & Hby & _).
  split_and!; [| exact Hid | exact Hrole | exact Hby |].
  all: unfold AdminDashboard.handleCreateDoctor; js_run; js_cases; try done.
  all: rewrite ?docs_of_add_doc, ?decide_True by done.
  all: split_and!; try done; try apply lookup_insert_eq.
  all: try (intros name id Hne; rewrite docs_of_add_doc; case_decide; subst;
            [apply lookup_insert_ne; congruence | done]).
  intros _. apply list_elem_of_fmap.
  exists (fresh_id (store w) (id_source w (created w)), record).
  split; [done |]. apply elem_of_map_to_list, lookup_insert_eq.
Qed.

End Doctors.

(** ** The doctor table and its subscription *)


(** X8: the identifier a row gives to its delete button.  A row made from
    a document without a field [id] carries the document identifier, and
    deleting with it removes that very document.  A field [id] of the
    document itself takes the place of the document identifier in the row:
    the button then deletes under that other identifier, and the document
    of the row stays stored. *)
Theorem row_delete_button_target (id other doctorName : string)
    (data : document) (w : World) :
  docs_of (store w) "doctors" !! id = Some data ->
  store_error w = None ->
  (data !! "id" = None ->
   DoctorTable.row_id (doctor_row (id, data)) = Some id
   ∧ docs_of (store (exec (AdminDashboard.handleDeleteDoctor id doctorName) w))
       "doctors" !! id = None)
  ∧ (data !! "id" = Some (VString other) ->
     DoctorTable.row_id (doctor_row (id, data)) = Some other
     ∧ (other ≠ id ->
        docs_of
          (store (exec (AdminDashboard.handleDeleteDoctor other doctorName) w))
          "doctors" !! id = Some data)).
Proof.
  intros Hl He. unfold DoctorTable.row_id, doctor_row. cbn [fst snd]. split.
  - intros Hnone. split.
    + rewrite lookup_union_r by done. by rewrite lookup_singleton_eq.
    + unfold AdminDashboard.handleDeleteDoctor. js_run. js_cases.
      all: rewrite docs_of_delete_doc, decide_True by done.
      all: apply lookup_delete_eq.
  - intros Hsome. split.
    + by rewrite (lookup_union_Some_l _ _ _ _ Hsome).
    + intros Hne. unfold AdminDashboard.handleDeleteDoctor. js_run. js_cases.
      all: rewrite docs_of_delete_doc, decide_True by done.
      all: by rewrite lookup_delete_ne.
Qed.

(** ** The greeting of the doctor dashboard *)

Section Greeting.
Context `{Runtime} `{Overall.Parser}.

(** X9: the dashboard greets the doctor who signed in.  When the runtime
    parses the marker back to the object it serialized, the effect of the
    greeting sets [doctorName] to the [name] of the record the sign-in
    matched, provided that name is truthy. *)
Theorem greeting_after_doctor_login (uid pw id : string) (data : document)
    (name previous : value) (w : World) :
  store_error w = None ->
  timers w = [] ->
  run_query (store w) (Login.doctorsQuery (Some uid) (Some pw)) = [(id, data)] ->
  data !! "name" = Some name ->
  Overall.truthy name = true ->
  Overall.JSON_parse (JSON_stringify (<["id" := VString id]> data))
  = Overall.Object (<["id" := VString id]> data) ->
  Overall.effect (exec (Login.attempt "doctor" uid pw) w) previous = Some name.
Proof.
  intros He Ht Hq Hname Htruthy Hparse.
  unfold Overall.effect, Login.attempt, Login.handleSubmit. js_run. js_cases.
  rewrite lookup_insert_eq, Hparse, lookup_insert_ne by done.
  by rewrite Hname, Htruthy.
Qed.

(** The local storage after a sign-in in any role but doctor. *)
Lemma login_other_roles_keep_storage (role uid pw : string) (w : World) :
  timers w = [] ->
  role ≠ "doctor" ->
  localStorage (exec (Login.attempt role uid pw) w) = localStorage w.
Proof.
  intros Ht Hrole. unfold Login.attempt, Login.handleSubmit. js_run.
  js_cases; done.
Qed.

(** X10: only a doctor's sign-in can change whom the dashboard greets:
    after a sign-in attempt in any other role, successful or not, the
    effect of the greeting gives what it would have given before. *)
Theorem greeting_unchanged_by_other_roles (role uid pw : string)
    (previous : value) (w : World) :
  timers w = [] ->
  role ≠ "doctor" ->
  Overall.effect (exec (Login.attempt role uid pw) w) previous
  = Overall.effect w previous.
Proof.
  intros Ht Hrole. unfold Overall.effect.
  by rewrite login_other_roles_keep_storage.
Qed.

End Greeting.

(** ** What a sign-in leaves alone *)

Section Frame.
Context `{Runtime}.

(** X11: whatever its outcome, a sign-in attempt never writes to the
    store, never switches the tab of the login page and never touches the
    state of the admin console; local storage changes only when a doctor's
    query resolved with a record, and then only under [currentUser]. *)
Theorem login_attempt_frame (role uid pw : string) (w : World) :
  timers w = [] ->
  let w' := exec (Login.attempt role uid pw) w in
  store w' = store w
  ∧ activeTab w' = activeTab w
  ∧ doctors w' = doctors w
  ∧ showAlert w' = showAlert w
  ∧ alertMessage w' = alertMessage w
  ∧ (∀ key, key ≠ "currentUser" -> localStorage w' !! key = localStorage w !! key)
  ∧ (localStorage w' !! "currentUser" ≠ localStorage w !! "currentUser" ->
     role = "doctor" ∧ store_error w = None
     ∧ run_query (store w) (Login.doctorsQuery (Some uid) (Some pw)) ≠ []).
Proof.
  intros Ht w'. subst w'.
  unfold Login.attempt, Login.handleSubmit. js_run.
  js_cases; split_and!; try done.
  all: intros key Hkey; by rewrite lookup_insert_ne.
Qed.

End Frame.

(** ** The earlier login page: registration *)

(** X12: the registration of the earlier login page is a timed display and
    nothing else.  Whatever the form holds, the button reads "Sending
    Credentials..." after 2000 ms, and after 4000 ms the success alert names
    the email of the form, the button is enabled again under its original
    label and the sign-in tab is opened; no call reaches the store and
    nothing is stored, in the store or locally. *)
Theorem literal_registration_flow (e : Form.FormData) (w : World) :
  timers w = [] ->
  let w1 := exec (LiteralLogin.handleSubmit e false ;; run_timers 1) w in
  let w2 := exec (run_timers 1) w1 in
  button_textContent w1 = "Sending Credentials..."
  ∧ button_disabled w1 = true
  ∧ clock w1 = (clock w + 2000)%N
  ∧ alerts w1 = alerts w
  ∧ alerts w2
    = alerts w ++ [registration_message (Form.show (Form.get "email" e))]
  ∧ button_textContent w2 = button_textContent w
  ∧ button_disabled w2 = false
  ∧ activeTab w2 = "login"
  ∧ clock w2 = (clock w + 4000)%N
  ∧ timers w2 = []
  ∧ requests w2 = requests w
  ∧ store w2 = store w
  ∧ localStorage w2 = localStorage w.
Proof.
  intros Ht w1 w2. subst w2 w1.
  unfold LiteralLogin.handleSubmit. js_run. js_cases.
  split_and!; try done. lia.
Qed.

(** ** The role selectors *)

(** X13: the label of the identifier field after a role is chosen.  For
    each value the role control offers the field is labelled "Email" (and
    typed [email]) for the admin and "Licence ID" otherwise; the Doctor ID
    label and its example are reached for the value [doctors] only, which
    the control does not offer: choosing Doctor leaves the Licence ID
    label.  The outcome depends on the value chosen last, not on the field
    before. *)
Theorem role_label_for_offered_roles (u : RoleSelect.Widget) :
  Forall (fun role =>
            let u' := RoleSelect.handleRoleChange role u in
            RoleSelect.selectedRole u' = role
            ∧ RoleSelect.userIdLabel_textContent u'
              = (if decide (role = "admin") then "📧 Email"
                 else "📧 Licence ID")
            ∧ RoleSelect.userIdInput_type u'
              = (if decide (role = "admin") then "email" else "text"))
         RoleSelect.role_options
  ∧ (∀ role,
       (RoleSelect.userIdLabel_textContent (RoleSelect.handleRoleChange role u)
        = "🆔 Doctor ID")
       ↔ role = "doctors")
  ∧ ("doctors" ∉ RoleSelect.role_options)
  ∧ (∀ first last,
       RoleSelect.handleRoleChange last (RoleSelect.handleRoleChange first u)
       = RoleSelect.handleRoleChange last u).
Proof.
  split_and!.
  - repeat constructor.
  - intros role. unfold RoleSelect.handleRoleChange.
    repeat case_decide; subst; cbn; split; intros; simplify_eq; done.
  - unfold RoleSelect.role_options. rewrite !not_elem_of_cons.
    split_and!; try done. apply not_elem_of_nil.
  - intros first last. unfold RoleSelect.handleRoleChange.
    by repeat case_decide.
Qed.

Lemma literal_role_fields_length (roles : list string)
    (f : LiteralRoleSelect.Fields) :
  length (LiteralRoleSelect.doctorFields_display
            (foldl (fun f role => LiteralRoleSelect.handleRoleChange role f)
                   f roles))
  = length (LiteralRoleSelect.doctorFields_display f).
Proof.
  revert f. induction roles as [|role roles IH]; intros f; [done |].
  cbn [foldl]. rewrite IH. unfold LiteralRoleSelect.handleRoleChange.
  case_decide; cbn; by rewrite length_fmap.
Qed.

(** X14: in the sign-up form of the earlier login page the doctor-only
    groups follow the role chosen last.  After any sequence of choices,
    both groups are displayed and the licence and specialization controls
    are required exactly when the last choice is [doctor]; otherwise both
    groups are hidden and nothing is required of them. *)
Theorem literal_role_fields_follow_last_choice (roles : list string)
    (last : string) :
  let f := foldl (fun f role => LiteralRoleSelect.handleRoleChange role f)
                 LiteralRoleSelect.initial (roles ++ [last]) in
  LiteralRoleSelect.selectedRole f = last
  ∧ LiteralRoleSelect.doctorFields_display f
    = (if decide (last = "doctor") then ["block"; "block"]
       else ["none"; "none"])
  ∧ LiteralRoleSelect.licenseInput_required f = bool_decide (last = "doctor")
  ∧ LiteralRoleSelect.specializationSelect_required f
    = bool_decide (last = "doctor").
Proof.
  intros f. subst f. rewrite foldl_app. cbn [foldl].
  pose proof (literal_role_fields_length roles LiteralRoleSelect.initial)
    as Hlen.
  set (f0 := foldl (fun f role => LiteralRoleSelect.handleRoleChange role f)
                   LiteralRoleSelect.initial roles) in *.
  destruct (LiteralRoleSelect.doctorFields_display f0)
    as [|d1 [|d2 [|d3 ds]]] eqn:Hd; try done.
  unfold LiteralRoleSelect.handleRoleChange.
  case_decide; cbn; rewrite Hd; cbn.
  - by rewrite bool_decide_eq_true_2.
  - by rewrite bool_decide_eq_false_2.
Qed.

(** ** The side bar of the doctor dashboard *)

(** X15: the side bar and the content panes agree.  Whatever section was
    shown, a click on any menu item leaves exactly one content pane rendered
    and exactly that item marked active; the same holds for the section the
    dashboard starts with. *)
Theorem menu_click_shows_one_section (previous : string) :
  Forall (fun item =>
            let section := DashboardMenu.click item previous in
            length (DashboardMenu.content_body section) = 1
            ∧ filter (fun i => DashboardMenu.nav_className section i
                               = "nav-item active")
                     DashboardMenu.menuItems
              = [item])
         DashboardMenu.menuItems
  ∧ length (DashboardMenu.content_body DashboardMenu.initial_activeSection) = 1
  ∧ ∀ section,
      (section ∉ DashboardMenu.menuItems.*1) ->
      DashboardMenu.content_body section = [].
Proof.
  split_and!.
  - repeat constructor.
  - reflexivity.
  - intros section Hnot. unfold DashboardMenu.content_body.
    cbn in Hnot. rewrite !not_elem_of_cons in Hnot.
    destruct Hnot as (? & ? & ? & ? & ? & _).
    by rewrite !decide_False.
Qed.

(** ** Routes *)

Section Routes.
Context `{Runtime}.

(** X16: where a sign-in leaves the tab.  An attempt either fails, with
    one alert and the location as it was, or succeeds, without an alert
    and with the location set to a path that a route of [App] has: the
    route of the page of the role, [Dashboard] for a doctor, [User] for
    the user role, [AdminDashboard] for an admin. *)
Theorem login_lands_on_route_of_role (role uid pw : string) (w : World) :
  timers w = [] ->
  let w' := exec (Login.attempt role uid pw) w in
  ((∃ message, alerts w' = alerts w ++ [message]) ∧ href w' = href w)
  ∨ (alerts w' = alerts w
     ∧ ∃ element,
         App.route_at App.routes (href w') = Some element
         ∧ ((role = "doctor" ∧ href w' = "/dashboard"
             ∧ element = "Dashboard")
            ∨ (role = "user" ∧ href w' = "/user" ∧ element = "User")
            ∨ (role = "admin" ∧ href w' = "/admindashboard"
               ∧ element = "AdminDashboard"))).
Proof.
  intros Ht w'. subst w'.
  unfold Login.attempt, Login.handleSubmit. js_run.
  js_cases.
  all: try (left; split; [eexists; reflexivity | reflexivity]).
  all: right; (split; [reflexivity |]); eexists; (split; [reflexivity |]).
  all: naive_solver.
Qed.

End Routes.

(** The targets of the three successful sign-ins and the link of the
    navigation bar have a route; the earlier route table has the first
    two and the link. *)
Example route_table_lookups :
  App.route_at App.routes "/dashboard" = Some "Dashboard"
  ∧ App.route_at App.routes "/user" = Some "User"
  ∧ App.route_at App.routes "/admindashboard" = Some "AdminDashboard"
  ∧ App.route_at App.routes "/login" = Some "Login"
  ∧ App.route_at App.earlier_routes "/dashboard" = Some "Dashboard"
  ∧ App.route_at App.earlier_routes "/user" = Some "User"
  ∧ App.route_at App.earlier_routes "/login" = Some "Login".
Proof. repeat split. Qed.

(** ** The format of doctor identifiers *)

(** X17: for every string that rendering a value of the unit interval in
    radix 36 can give (["0"], or ["0."] and one or more digits), the
    identifier made of it starts with [DR], has at most eight further
    characters, all of them digits or upper-case letters, and has the
    documented format exactly when the rendering has eight digits or more
    behind the point. *)
Theorem doctor_id_format (rendering : string) :
  Rendering.of_unit_interval rendering = true ->
  let id := DoctorId.of_rendering rendering in
  String.prefix "DR" id = true
  ∧ (String.length id <= 10)%nat
  ∧ JsString.all_chars JsString.is_upper_alnum (JsString.drop_chars 2 id)
    = true
  ∧ (DoctorId.well_formed id = true
     ↔ (10 <= String.length rendering)%nat).
Proof.
  intros Hr id. subst id.
  destruct (DoctorIdFacts.of_unit_interval_inv rendering Hr)
    as [-> | (digits & -> & Hlen & Hdigits)].
  { vm_compute. repeat split; try discriminate; lia. }
  destruct (DoctorIdFacts.of_rendering_shape digits Hdigits)
    as (t & -> & Ht & Hchars).
  change ("DR" +:+ t) with (String "D" (String "R" t)).
  change ("0." +:+ digits) with (String "0" (String "." digits)).
  split_and!; [cbn; by destruct t | cbn; lia | exact Hchars |].
  unfold DoctorId.well_formed. cbn.
  replace (String.prefix EmptyString t) with true by (by destruct t).
  rewrite Hchars, andb_true_r. cbn. rewrite Nat.eqb_eq, Ht. lia.
Qed.

(** ** Accounts over time *)

Section Accounts.
Context `{Runtime}.

(** A sign-up the store accepts, up to its success alert: the record is
    stored under a new identifier and the tab is idle again. *)
Lemma signup_accepted (firstName lastName email password : string)
    (w : World) :
  timers w = [] ->
  store_error w = None ->
  let e := Form.signup_form firstName lastName email password password in
  let w' := exec (Login.handleSubmit e false ;; run_timers 1) w in
  store w' = add_doc "admins" (auto_id w) (Login.adminData e (clock w)) (store w)
  ∧ requests w' = requests w ++ [AddDoc "admins" (Login.adminData e (clock w))]
  ∧ timers w' = []
  ∧ store_error w' = None.
Proof.
  intros Ht He e w'. subst w'.
  unfold Login.handleSubmit. js_run.
  rewrite decide_False by (intros Hne; by apply Hne).
  js_cases. done.
Qed.

(** X18: sign-up does not look for an existing account.  Two sign-ups in
    a row with the same email and password, on one tab over a store that
    accepts them, both issue their [addDoc]; the second record is stored
    under another identifier than the first and next to it, so that the
    collection has two records more than before; both pass the sign-in
    query for that email and password, which returns two results or
    more. *)
Theorem signup_accepts_duplicates
    (firstName1 lastName1 firstName2 lastName2 email password : string)
    (w : World) :
  timers w = [] ->
  store_error w = None ->
  let e1 := Form.signup_form firstName1 lastName1 email password password in
  let e2 := Form.signup_form firstName2 lastName2 email password password in
  let q := Login.adminQuery (Some email) (Some password) in
  let w1 := exec (Login.handleSubmit e1 false ;; run_timers 1) w in
  let w' := exec (Login.handleSubmit e2 false ;; run_timers 1) w1 in
  let first := Login.adminData e1 (clock w) in
  let second := Login.adminData e2 (clock w1) in
  requests w' = requests w ++ [AddDoc "admins" first; AddDoc "admins" second]
  ∧ auto_id w1 ≠ auto_id w
  ∧ docs_of (store w') "admins"
    = <[auto_id w1 := second]>
        (<[auto_id w := first]> (docs_of (store w) "admins"))
  ∧ size (docs_of (store w') "admins")
    = S (S (size (docs_of (store w) "admins")))
  ∧ matches q first
  ∧ matches q second
  ∧ 2 <= length (run_query (store w') q).
Proof.
  intros Ht He e1 e2 q w1 w' first second.
  assert (Hm : ∀ e now,
             Form.get "email" e = Some email ->
             Form.get "password" e = Some password ->
             matches q (Login.adminData e now)).
  { intros e now Hemail Hpw.
    destruct (adminData_fields e now) as (Hf1 & Hf2 & _).
    rewrite Hemail in Hf1. rewrite Hpw in Hf2.
    constructor; [exact Hf1 |]. constructor; [exact Hf2 |]. constructor. }
  destruct (signup_accepted firstName1 lastName1 email password w Ht He)
    as (Hstore1 & Hrequests1 & Ht1 & He1).
  destruct (signup_accepted firstName2 lastName2 email password w1 Ht1 He1)
    as (Hstore2 & Hrequests2 & _).
  fold e1 w1 first in Hstore1, Hrequests1.
  fold e2 w' second in Hstore2, Hrequests2.
  rewrite Hrequests1, <- app_assoc in Hrequests2. cbn in Hrequests2.
  assert (Hnew1 : docs_of (store w) "admins" !! auto_id w = None)
    by apply auto_id_fresh.
  assert (Hnew2 : docs_of (store w1) "admins" !! auto_id w1 = None)
    by apply auto_id_fresh.
  assert (Hdocs1 : docs_of (store w1) "admins"
                   = <[auto_id w := first]> (docs_of (store w) "admins")).
  { by rewrite Hstore1, docs_of_add_doc, decide_True. }
  assert (Hdocs2 : docs_of (store w') "admins"
                   = <[auto_id w1 := second]> (docs_of (store w1) "admins")).
  { by rewrite Hstore2, docs_of_add_doc, decide_True. }
  assert (Hne : auto_id w1 ≠ auto_id w).
  { intros Heq. rewrite Hdocs1, Heq, lookup_insert_eq in Hnew2. done. }
  assert (Hfirst : docs_of (store w') "admins" !! auto_id w = Some first).
  { rewrite Hdocs2, Hdocs1, lookup_insert_ne by done. apply lookup_insert_eq. }
  assert (Hsecond : docs_of (store w') "admins" !! auto_id w1 = Some second).
  { rewrite Hdocs2. apply lookup_insert_eq. }
  split_and!; [exact Hrequests2 | exact Hne | | | by apply Hm | by apply Hm |].
  - by rewrite Hdocs2, Hdocs1.
  - rewrite Hdocs2, map_size_insert_None by done.
    by rewrite Hdocs1, map_size_insert_None.
  - assert (Hin1 : (auto_id w, first) ∈ run_query (store w') q)
      by (apply elem_of_run_query; split; [exact Hfirst | by apply Hm]).
    assert (Hin2 : (auto_id w1, second) ∈ run_query (store w') q)
      by (apply elem_of_run_query; split; [exact Hsecond | by apply Hm]).
    destruct (run_query (store w') q) as [|d1 [|d2 l]]; cbn; [| | lia].
    + by apply elem_of_nil in Hin1.
    + apply list_elem_of_singleton in Hin1, Hin2. congruence.
Qed.

(** X19: a deleted doctor can no longer sign in.  When exactly one record
    matches an identifier and password and that record is deleted through
    the console, a sign-in with them, on any tab over the store as the
    deletion left it, ends with the invalid-credentials alert, without
    navigation and without a marker. *)
Theorem deleted_doctor_cannot_sign_in (uid pw id doctorName : string)
    (data : document) (w w2 : World) :
  run_query (store w) (Login.doctorsQuery (Some uid) (Some pw)) = [(id, data)] ->
  store_error w = None ->
  store w2 = store (exec (AdminDashboard.handleDeleteDoctor id doctorName) w) ->
  store_error w2 = None ->
  timers w2 = [] ->
  let w' := exec (Login.attempt "doctor" uid pw) w2 in
  alerts w' = alerts w2 ++ ["Invalid Doctor ID or password!"]
  ∧ href w' = href w2
  ∧ localStorage w' = localStorage w2.
Proof.
  intros Hone He Hstore He2 Ht2 w'. subst w'.
  assert (Hnone : run_query (store w2)
                    (Login.doctorsQuery (Some uid) (Some pw)) = []).
  { apply run_query_none. intros id' data' Hl Hm.
    apply run_query_exactly_one in Hone as (_ & _ & Huniq).
    revert Hl. rewrite Hstore.
    unfold AdminDashboard.handleDeleteDoctor. js_run. js_cases.
    all: cbn; rewrite docs_of_delete_doc, decide_True by done.
    all: intros Hl; apply lookup_delete_Some in Hl as [Hne Hl].
    all: apply Hne; symmetry; by eapply Huniq. }
  unfold Login.attempt, Login.handleSubmit. js_run. js_cases. done.
Qed.

End Accounts.

(** ** The further properties on the sample tabs *)

(** X1 on the sample tab. *)
Lemma signup_account_scenario :
  let w' := exec (Login.handleSubmit (H := Sample.runtime)
                    (Form.signup_form "Cy" "Dee" "c@d.com" "abc123" "abc123")
                    false ;; run_timers 1) Sample.idle in
  alerts w' = [account_created_message]
  ∧ activeTab w' = "login"
  ∧ button_textContent w' = " Sign In "
  ∧ button_disabled w' = false.
Proof.
  destruct (signup_creates_admin (H := Sample.runtime)
              "Cy" "Dee" "c@d.com" "abc123" Sample.idle eq_refl)
    as (_ & _ & _ & _ & Hup & Htext & Hdisabled & _).
  change (store_error Sample.idle) with (@None string) in Hup.
  destruct Hup as (_ & Halerts & Htab & _).
  split_and!; [exact Halerts | exact Htab | exact Htext | exact Hdisabled].
Defined.

(** X2 on the sample tab: sign up, then sign in. *)
Lemma signup_then_login_scenario :
  let w2 := exec (Login.handleSubmit (H := Sample.runtime)
                    (Form.signup_form "Cy" "Dee" "c@d.com" "abc123" "abc123")
                    false ;; run_timers 1) Sample.idle in
  let w' := exec (Login.attempt (H := Sample.runtime) "admin" "c@d.com" "abc123")
                 w2 in
  href w' = "/admindashboard" ∧ alerts w' = alerts w2 ∧ timers w' = [].
Proof.
  apply (signup_then_admin_login (H := Sample.runtime)
           "Cy" "Dee" "c@d.com" "abc123" Sample.idle); compute_done.
Defined.

(** X4 on the sample tab. *)
Lemma doctor_marker_scenario :
  let q := Login.doctorsQuery (Some "DR8A3F2B1C") (Some "pw123") in
  let w' := exec (Login.attempt (H := Sample.runtime)
                    "doctor" "DR8A3F2B1C" "pw123") Sample.idle in
  href w' = "/dashboard"
  ∧ ∃ id data rest (marker : document),
      run_query (store Sample.idle) q = (id, data) :: rest
      ∧ docs_of (store Sample.idle) "doctors" !! id = Some data
      ∧ (∀ id' data',
           docs_of (store Sample.idle) "doctors" !! id' = Some data' ->
           matches q data' -> String.leb id id' = true)
      ∧ marker = <["id" := VString id]> data
      ∧ localStorage w'
        = <["currentUser" := Sample.stringify marker]>
            (localStorage Sample.idle)
      ∧ marker !! "doctorId" = Some (VString "DR8A3F2B1C")
      ∧ marker !! "password" = Some (VString "pw123").
Proof.
  apply (doctor_marker_holds_credentials (H := Sample.runtime)
           "DR8A3F2B1C" "pw123" "Zk3v9QpLw2" Sample.doctor_record Sample.idle);
    compute_done.
Defined.

(** X5 on the sample tab: create a doctor, then sign in as that doctor. *)
Lemma created_doctor_scenario :
  let w2 := exec (AdminDashboard.handleCreateDoctor (H := Sample.runtime)
                    Scenario.new_doctor 0x1552869a6b3740 "Admin User" ;;
                  run_timers 1) Sample.idle in
  let w' := exec (Login.attempt (H := Sample.runtime)
                    "doctor" "DRNZK0D76C" "t0psecret") w2 in
  href w' = "/dashboard"
  ∧ ∃ marker : document,
      localStorage w' !! "currentUser" = Some (Sample.stringify marker)
      ∧ marker !! "doctorId" = Some (VString "DRNZK0D76C").
Proof.
  apply (created_doctor_can_sign_in (H := Sample.runtime)
           Scenario.new_doctor 0x1552869a6b3740 "Admin User" "t0psecret"
           Sample.idle); compute_done.
Defined.

(** X8 on the sample tabs: a row without and a row with a field [id] of
    its own. *)
Lemma row_delete_scenario :
  DoctorTable.row_id (doctor_row ("Zk3v9QpLw2", Scenario.imported_record))
  = Some "b7Hq2MtR5x"
  ∧ docs_of
      (store (exec (AdminDashboard.handleDeleteDoctor "b7Hq2MtR5x" "Asha Rao")
                   Scenario.imported))
      "doctors" !! "Zk3v9QpLw2"
    = Some Scenario.imported_record.
Proof.
  destruct (row_delete_button_target "Zk3v9QpLw2" "b7Hq2MtR5x" "Asha Rao"
              Scenario.imported_record Scenario.imported)
    as [_ Hown]; [compute_done | compute_done |].
  destruct Hown as [Hrow Hkept]; [compute_done |].
  split; [exact Hrow | apply Hkept; discriminate].
Defined.

(** X9 on the sample tab. *)
Lemma greeting_scenario :
  Overall.effect (H := Scenario.parser)
    (exec (Login.attempt (H := Sample.runtime) "doctor" "DR8A3F2B1C" "pw123")
          Sample.idle)
    Overall.initial_doctorName
  = Some (VString "Asha Rao").
Proof.
  apply (greeting_after_doctor_login (H := Sample.runtime)
           (H0 := Scenario.parser) "DR8A3F2B1C" "pw123" "Zk3v9QpLw2"
           Sample.doctor_record (VString "Asha Rao")
           Overall.initial_doctorName Sample.idle); compute_done.
Defined.

(** X10 on the sample tab: an admin signs in on a tab that holds no
    marker. *)
Lemma greeting_after_admin_scenario :
  Overall.effect (H := Scenario.parser)
    (exec (Login.attempt (H := Sample.runtime) "admin" "a@b.com" "right")
          Sample.idle)
    Overall.initial_doctorName
  = Overall.effect (H := Scenario.parser) Sample.idle
      Overall.initial_doctorName.
Proof.
  apply (greeting_unchanged_by_other_roles (H := Sample.runtime)
           (H0 := Scenario.parser) "admin" "a@b.com" "right"
           Overall.initial_doctorName Sample.idle); [reflexivity | discriminate].
Defined.

(** X11 on the sample tab. *)
Lemma login_frame_scenario :
  let w' := exec (Login.attempt (H := Sample.runtime) "admin" "a@b.com" "right")
                 Sample.idle in
  store w' = Sample.records ∧ activeTab w' = "login".
Proof.
  destruct (login_attempt_frame (H := Sample.runtime)
              "admin" "a@b.com" "right" Sample.idle eq_refl)
    as (Hstore & Htab & _).
  split; [exact Hstore | exact Htab].
Defined.

(** X12 on the sample tab. *)
Lemma literal_registration_scenario :
  let w1 := exec (LiteralLogin.handleSubmit
                    [("licenseId", "none at all"); ("email", "x@y.org")] false ;;
                  run_timers 1) Sample.idle in
  let w2 := exec (run_timers 1) w1 in
  alerts w2 = [registration_message "x@y.org"]
  ∧ activeTab w2 = "login"
  ∧ clock w2 = (clock Sample.idle + 4000)%N
  ∧ requests w2 = [].
Proof.
  destruct (literal_registration_flow
              [("licenseId", "none at all"); ("email", "x@y.org")]
              Sample.idle eq_refl)
    as (_ & _ & _ & _ & Halerts & _ & _ & Htab & Hclock & _ & Hreq & _).
  split_and!; [exact Halerts | exact Htab | exact Hclock | exact Hreq].
Defined.

(** X16 on the sample tab: an admin signs in. *)
Lemma route_of_role_scenario :
  let w' := exec (Login.attempt (H := Sample.runtime)
                    "admin" "a@b.com" "right") Sample.idle in
  ((∃ message, alerts w' = alerts Sample.idle ++ [message])
   ∧ href w' = href Sample.idle)
  ∨ (alerts w' = alerts Sample.idle
     ∧ ∃ element,
         App.route_at App.routes (href w') = Some element
         ∧ (("admin" = "doctor" ∧ href w' = "/dashboard"
             ∧ element = "Dashboard")
            ∨ ("admin" = "user" ∧ href w' = "/user" ∧ element = "User")
            ∨ ("admin" = "admin" ∧ href w' = "/admindashboard"
               ∧ element = "AdminDashboard"))).
Proof.
  apply (login_lands_on_route_of_role (H := Sample.runtime)
           "admin" "a@b.com" "right" Sample.idle).
  reflexivity.
Defined.

(** X17 at a rendering of eleven digits, as the engines print it for most
    values. *)
Lemma doctor_id_format_scenario :
  let id := DoctorId.of_rendering "0.nzk0d76cu6h" in
  String.prefix "DR" id = true
  ∧ (String.length id <= 10)%nat
  ∧ JsString.all_chars JsString.is_upper_alnum (JsString.drop_chars 2 id)
    = true
  ∧ (DoctorId.well_formed id = true
     ↔ (10 <= String.length "0.nzk0d76cu6h")%nat).
Proof. apply (doctor_id_format "0.nzk0d76cu6h"). reflexivity. Defined.

(** X18 on the sample tab: the same sign-up twice. *)
Lemma duplicate_signup_scenario :
  let e := Form.signup_form "Cy" "Dee" "c@d.com" "abc123" "abc123" in
  let q := Login.adminQuery (Some "c@d.com") (Some "abc123") in
  let w1 := exec (Login.handleSubmit (H := Sample.runtime) e false ;;
                  run_timers 1) Sample.idle in
  let w' := exec (Login.handleSubmit (H := Sample.runtime) e false ;;
                  run_timers 1) w1 in
  auto_id w1 ≠ auto_id Sample.idle
  ∧ size (docs_of (store w') "admins")
    = S (S (size (docs_of (store Sample.idle) "admins")))
  ∧ 2 <= length (run_query (store w') q).
Proof.
  destruct (signup_accepts_duplicates (H := Sample.runtime)
              "Cy" "Dee" "Cy" "Dee" "c@d.com" "abc123" Sample.idle
              eq_refl eq_refl)
    as (_ & Hne & _ & Hsize & _ & _ & Hlength).
  split_and!; [exact Hne | exact Hsize | exact Hlength].
Defined.

(** The same run, evaluated: the two identifiers, the three admin records
    that are stored afterwards, and the two the sign-in query returns. *)
Example duplicate_signup_evaluated :
  let e := Form.signup_form "Cy" "Dee" "c@d.com" "abc123" "abc123" in
  let w1 := exec (Login.handleSubmit (H := Sample.runtime) e false ;;
                  run_timers 1) Sample.idle in
  let w' := exec (Login.handleSubmit (H := Sample.runtime) e false ;;
                  run_timers 1) w1 in
  auto_id Sample.idle = "n3wDocument"
  ∧ auto_id w1 = "an0therDoc"
  ∧ size (docs_of (store Sample.idle) "admins") = 1
  ∧ size (docs_of (store w1) "admins") = 2
  ∧ size (docs_of (store w') "admins") = 3
  ∧ (run_query (store w')
       (Login.adminQuery (Some "c@d.com") (Some "abc123"))).*1
    = ["an0therDoc"; "n3wDocument"].
Proof. cbv zeta. repeat apply conj; compute_done. Qed.

(** X19 on the sample tab: the sample doctor is deleted, then tries to
    sign in. *)
Lemma deleted_doctor_scenario :
  let w2 := Sample.tab
              (store (exec (AdminDashboard.handleDeleteDoctor
                              "Zk3v9QpLw2" "Asha Rao") Sample.idle))
              None in
  let w' := exec (Login.attempt (H := Sample.runtime)
                    "doctor" "DR8A3F2B1C" "pw123") w2 in
  alerts w' = alerts w2 ++ ["Invalid Doctor ID or password!"]
  ∧ href w' = href w2
  ∧ localStorage w' = localStorage w2.
Proof.
  apply (deleted_doctor_cannot_sign_in (H := Sample.runtime)
           "DR8A3F2B1C" "pw123" "Zk3v9QpLw2" "Asha Rao" Sample.doctor_record
           Sample.idle); [compute_done | reflexivity..].
Defined.
